(** * Cypress HID bootloader host: a shallow embedding of [cybootloaderhost.py]

    The Python program is embedded function by function.  Python integers
    are [Z] (bit operations are the two's-complement ones of [Z]), lists and
    [bytes] objects are [list Z], text is [string].  A Python exception is a
    value of [exn]; pure code returns a [result], methods that mutate [self]
    or talk to the HID device are state transformers that keep the mutated
    state when an exception is raised. *)

From Stdlib Require Import ZArith List String Ascii Bool Lia.
Import ListNotations.
Open Scope Z_scope.

(** ** Exceptions and results *)

(** The [assert] statements of the program, told apart by their place. *)
Inductive assert_site : Type :=
| payload_size    (* assert data_length <= (64 - 7) *)
| start_marker    (* assert sop == 0x01 *)
| end_marker      (* assert eop == 0x17 *)
| line_checksum.  (* assert checksum == checksum_calculated *)

Inductive exn : Type :=
| AssertionError (site : assert_site)
| KeyError (key : Z)
| IndexError
| TypeError
| ValueError.     (* binascii.Error is a ValueError *)

Inductive result (A : Type) : Type :=
| Ok (a : A)
| Raise (e : exn).
Arguments Ok {A} a.
Arguments Raise {A} e.

Definition rbind {A B} (r : result A) (k : A -> result B) : result B :=
  match r with
  | Ok a => k a
  | Raise e => Raise e
  end.

Notation "x <- e ;; k" := (rbind e (fun x => k))
  (at level 61, e at next level, right associativity).

Definition assert (b : bool) (site : assert_site) : result unit :=
  if b then Ok tt else Raise (AssertionError site).

(** Methods: state transformers in which a raised exception keeps the
    state reached so far, as a Python exception does. *)
Definition M (S A : Type) : Type := S -> result A * S.

Definition ret {S A} (a : A) : M S A := fun s => (Ok a, s).

Definition bind {S A B} (m : M S A) (k : A -> M S B) : M S B :=
  fun s =>
    match m s with
    | (Ok a, s') => k a s'
    | (Raise e, s') => (Raise e, s')
    end.

Definition lift {S A} (r : result A) : M S A := fun s => (r, s).

Definition gets {S A} (f : S -> A) : M S A := fun s => (Ok (f s), s).

Definition modify {S} (f : S -> S) : M S unit := fun s => (Ok tt, f s).

Notation "x <~ e ;; k" := (bind e (fun x => k))
  (at level 61, e at next level, right associativity).

(** [for x in l: body(x)] *)
Fixpoint for_each {S A} (l : list A) (body : A -> M S unit) : M S unit :=
  match l with
  | [] => ret tt
  | x :: l' => _ <~ body x ;; for_each l' body
  end.

(** [x |= v] on an attribute that may still be [None]. *)
Definition ior (x : option Z) (v : Z) : result (option Z) :=
  match x with
  | Some n => Ok (Some (Z.lor n v))
  | None => Raise TypeError
  end.

(** ** Python sequences *)

Module Py.

Definition len {A} (l : list A) : Z := Z.of_nat (List.length l).

(** [l[i]], with Python's negative indices. *)
Definition getitem (l : list Z) (i : Z) : result Z :=
  let j := if i <? 0 then i + len l else i in
  if (j <? 0) || (len l <=? j) then Raise IndexError
  else Ok (nth (Z.to_nat j) l 0).

(** A slice bound, clamped the way [l[lo:hi]] clamps it. *)
Definition clamp {A} (l : list A) (default : Z) (bound : option Z) : Z :=
  match bound with
  | None => default
  | Some i => if i <? 0 then Z.max (i + len l) 0 else Z.min i (len l)
  end.

(** [l[lo:hi]]; [None] is an omitted bound. *)
Definition slice {A} (l : list A) (lo hi : option Z) : list A :=
  let start := clamp l 0 lo in
  let stop := clamp l (len l) hi in
  firstn (Z.to_nat (stop - start)) (skipn (Z.to_nat start) l).

(** [range(lo, hi)] *)
Definition range (lo hi : Z) : list Z :=
  map (fun k => lo + Z.of_nat k) (seq 0 (Z.to_nat (hi - lo))).

(** [d[k]] on a dict with integer keys, kept as its list of items. *)
Fixpoint dict_get {V} (d : list (Z * V)) (k : Z) : result V :=
  match d with
  | [] => Raise (KeyError k)
  | (k', v) :: d' => if k' =? k then Ok v else dict_get d' k
  end.

(** [l.pop(0)] *)
Definition pop0 {A} (l : list A) : result (A * list A) :=
  match l with
  | [] => Raise IndexError
  | x :: l' => Ok (x, l')
  end.

Fixpoint dropwhile {A} (p : A -> bool) (l : list A) : list A :=
  match l with
  | [] => []
  | x :: l' => if p x then dropwhile p l' else l
  end.

(** [s.rstrip(chars)] *)
Definition rstrip (s chars : list ascii) : list ascii :=
  rev (dropwhile (fun c => existsb (Ascii.eqb c) chars) (rev s)).

End Py.

(** ** binascii *)

Module binascii.

Definition hexdigit (c : ascii) : result Z :=
  let n := Z.of_nat (nat_of_ascii c) in
  if (48 <=? n) && (n <=? 57) then Ok (n - 48)
  else if (97 <=? n) && (n <=? 102) then Ok (n - 87)
  else if (65 <=? n) && (n <=? 70) then Ok (n - 55)
  else Raise ValueError.

(** [binascii.a2b_hex]: two hexadecimal digits per byte; an odd length or
    any other character raises. *)
Fixpoint a2b_hex (s : list ascii) : result (list Z) :=
  match s with
  | [] => Ok []
  | [_] => Raise ValueError
  | a :: b :: s' =>
      hi <- hexdigit a ;;
      lo <- hexdigit b ;;
      rest <- a2b_hex s' ;;
      Ok (hi * 16 + lo :: rest)
  end.

End binascii.

(** ** The HID transport

    The device handle is the boundary of the program.  It is modelled by the
    log of what was written to it and read from it, and by [reply], which
    gives the bytes the next [read] returns after a given history. *)

Module hid.

Inductive io_event : Type :=
| Wrote (packet : list Z)
| Read (max_length : Z) (got : list Z).

Record device : Type := mk_device {
  io_log : list io_event;
  reply : list io_event -> list Z
}.

Definition write (packet : list Z) (d : device) : device :=
  mk_device (io_log d ++ [Wrote packet]) (reply d).

Definition read (max_length : Z) (d : device) : list Z * device :=
  let got := reply d (io_log d) in
  (got, mk_device (io_log d ++ [Read max_length got]) (reply d)).

End hid.

(** ** class Bootloader: the packet codec *)

Module Bootloader.

Definition MAX_DATA_LENGTH : Z := 64 - 7 - 9.

Definition STATUSES : list (Z * string) :=
  [ (0x00, "CYRET_SUCCESS"%string);
    (0x03, "BOOTLOADER_ERR_LENGTH"%string);
    (0x04, "BOOTLOADER_ERR_DATA"%string);
    (0x05, "BOOTLOADER_ERR_CMD"%string);
    (0x08, "BOOTLOADER_ERR_CHECKSUM"%string);
    (0x09, "BOOTLOADER_ERR_ARRAY"%string);
    (0x0a, "BOOTLOADER_ERR_ROW"%string);
    (0x0c, "BOOTLOADER_ERR_APP"%string);
    (0x0d, "BOOTLOADER_ERR_ACTIVE"%string);
    (0x0e, "BOOTLOADER_ERR_CALLBACK"%string);
    (0x0f, "BOOTLOADER_ERR_UNK"%string) ].

Definition _checksum (data : list Z) : Z :=
  let checksum := fold_left (fun checksum byte => checksum + byte) data 0 in
  Z.land (Z.lnot checksum + 1) 0xffff.

Definition _make_packet (command : Z) (data : list Z) : result (list Z) :=
  let packet := [] in
  let packet := packet ++ [0x01] in
  let packet := packet ++ [command] in
  let data_length := Py.len data in
  _ <- assert (data_length <=? 64 - 7) payload_size ;;
  let packet := packet ++ [Z.land data_length 0xff] in
  let packet := packet ++ [Z.shiftr data_length 8] in
  let packet := fold_left (fun packet byte => packet ++ [byte]) data packet in
  let checksum := _checksum packet in
  let packet := packet ++ [Z.land checksum 0xff] in
  let packet := packet ++ [Z.shiftr checksum 8] in
  let packet := packet ++ [0x17] in
  Ok packet.

(** The dict built by [_parse_response]. *)
Record response : Type := mk_response {
  status : string;
  data : list Z;
  checksum_ok : bool
}.

Definition _parse_response (response_data : list Z) : result response :=
  let r_status := "BOOTLOADER_ERR_UNK"%string in
  let r_data := [] in
  let r_checksum_ok := false in
  sop <- Py.getitem response_data 0 ;;
  _ <- assert (sop =? 0x01) start_marker ;;
  code <- Py.getitem response_data 1 ;;
  r_status <- Py.dict_get STATUSES code ;;
  hi <- Py.getitem response_data 3 ;;
  lo <- Py.getitem response_data 2 ;;
  let data_length := Z.lor (Z.shiftl hi 8) lo in
  let r_data :=
    if data_length >? 0
    then Py.slice response_data (Some 4) (Some (4 + data_length))
    else r_data in
  checksum_received <- Py.getitem response_data (4 + data_length) ;;
  checksum_high <- Py.getitem response_data (4 + data_length + 1) ;;
  let checksum_received := Z.lor checksum_received (Z.shiftl checksum_high 8) in
  let checksum_calculated :=
    _checksum (Py.slice response_data None (Some (4 + data_length))) in
  let r_checksum_ok := checksum_calculated =? checksum_received in
  eop <- Py.getitem response_data (4 + data_length + 2) ;;
  _ <- assert (eop =? 0x17) end_marker ;;
  Ok (mk_response r_status r_data r_checksum_ok).


(** *** The session object *)

Record session : Type := mk_session {
  _device : hid.device;
  jtag_id : option Z;
  device_revision : option Z;
  bootloader_revision : option (list Z)
}.

(** [__init__], on a device that opened: [d] is the open handle.  The
    [except OSError] path, which leaves the object with a handle that was
    never opened, is outside this model. *)
Definition __init__ (d : hid.device) : session :=
  mk_session d None None None.

Definition device_write (packet : list Z) : M session unit :=
  modify (fun self =>
    mk_session (hid.write packet (_device self))
               (jtag_id self) (device_revision self) (bootloader_revision self)).

Definition device_read (max_length : Z) : M session (list Z) :=
  fun self =>
    let (got, d) := hid.read max_length (_device self) in
    (Ok got,
     mk_session d (jtag_id self) (device_revision self) (bootloader_revision self)).

Definition set_jtag_id (v : option Z) : M session unit :=
  modify (fun self =>
    mk_session (_device self) v (device_revision self) (bootloader_revision self)).

Definition set_device_revision (v : option Z) : M session unit :=
  modify (fun self =>
    mk_session (_device self) (jtag_id self) v (bootloader_revision self)).

Definition set_bootloader_revision (v : option (list Z)) : M session unit :=
  modify (fun self =>
    mk_session (_device self) (jtag_id self) (device_revision self) v).

(** [self.jtag_id |= v] *)
Definition ior_jtag_id (v : Z) : M session unit :=
  old <~ gets jtag_id ;;
  new <~ lift (ior old v) ;;
  set_jtag_id new.

Definition is_success (r : response) : bool :=
  checksum_ok r && (status r =? "CYRET_SUCCESS")%string.

Definition send_command (command : Z) (data : list Z) : M session response :=
  packet <~ lift (_make_packet command data) ;;
  _ <~ device_write packet ;;
  response_data <~ device_read 64 ;;
  response <~ lift (_parse_response response_data) ;;
  ret response.

Definition enter_bootloader : M session bool :=
  response <~ send_command 0x38 [] ;;
  if is_success response then
    d0 <~ lift (Py.getitem (data response) 0) ;;
    _ <~ set_jtag_id (Some d0) ;;
    d1 <~ lift (Py.getitem (data response) 1) ;;
    _ <~ ior_jtag_id (Z.shiftl d1 8) ;;
    d2 <~ lift (Py.getitem (data response) 2) ;;
    _ <~ ior_jtag_id (Z.shiftl d2 16) ;;
    d3 <~ lift (Py.getitem (data response) 3) ;;
    _ <~ ior_jtag_id (Z.shiftl d3 24) ;;
    d4 <~ lift (Py.getitem (data response) 4) ;;
    _ <~ set_device_revision (Some d4) ;;
    _ <~ set_bootloader_revision
           (Some (rev (Py.slice (data response) (Some 5) (Some 8)))) ;;
    ret true
  else
    ret false.

Definition program_row (array_id row_number : Z) (data : list Z)
  : M session bool :=
  let arguments := [array_id; Z.land row_number 0xff; Z.shiftr row_number 8] in
  response <~ send_command 0x39 (arguments ++ data) ;;
  if is_success response then ret true else ret false.

Definition erase_row (array_id row_number : Z) : M session bool :=
  let arguments := [array_id; Z.land row_number 0xff; Z.shiftr row_number 8] in
  response <~ send_command 0x34 arguments ;;
  if is_success response then ret true else ret false.

Definition send_data (data : list Z) : M session bool :=
  response <~ send_command 0x37 data ;;
  if is_success response then ret true else ret false.

Definition exit_bootloader : M session unit :=
  packet <~ lift (_make_packet 0x3b []) ;;
  device_write packet.

(** A row of the parsed firmware: [(array_id, row_number, data)]. *)
Definition row : Type := Z * Z * list Z.

(** The body of the [for row in firmware_data] loop. *)
Definition flash_row (r : row) : M session unit :=
  let '(array_id, row_number, data) := r in
  if Py.len data >=? MAX_DATA_LENGTH then
    let full_packets := Py.len data / MAX_DATA_LENGTH in
    let partial_packet_length := Py.len data mod MAX_DATA_LENGTH in
    if partial_packet_length >? 0 then
      _ <~ for_each (Py.range 0 full_packets) (fun i =>
             _ <~ send_data
                    (Py.slice data (Some (MAX_DATA_LENGTH * i))
                       (Some (MAX_DATA_LENGTH * i + MAX_DATA_LENGTH))) ;;
             ret tt) ;;
      _ <~ program_row array_id row_number
             (Py.slice data (Some (MAX_DATA_LENGTH * full_packets))
                (Some (MAX_DATA_LENGTH * full_packets + partial_packet_length))) ;;
      ret tt
    else
      _ <~ for_each (Py.range 0 (full_packets - 1)) (fun i =>
             _ <~ send_data
                    (Py.slice data (Some (MAX_DATA_LENGTH * i))
                       (Some (MAX_DATA_LENGTH * i + MAX_DATA_LENGTH))) ;;
             ret tt) ;;
      _ <~ program_row array_id row_number
             (Py.slice data (Some (MAX_DATA_LENGTH * (full_packets - 1)))
                (Some (MAX_DATA_LENGTH * (full_packets - 1) + MAX_DATA_LENGTH))) ;;
      ret tt
  else
    _ <~ program_row array_id row_number data ;;
    ret tt.

Definition flash (firmware_data : list row) : M session unit :=
  for_each firmware_data flash_row.

End Bootloader.

(** ** class Cyacd: the firmware container *)

Module Cyacd.

Record image : Type := mk_image {
  file : list string;            (* what [readlines()] returns *)
  silicon_id : option Z;
  silicon_revision : option Z;
  checksum_type : option Z;
  firmware : option (list Bootloader.row)
}.

Definition __init__ (firmware_file : list string) : image :=
  mk_image firmware_file None None None None.

Definition _checksum (data : list Z) : Z :=
  let checksum := fold_left (fun checksum byte => checksum + byte) data 0 in
  Z.land (Z.lnot checksum + 1) 0xff.

Definition set_silicon_id (v : option Z) : M image unit :=
  modify (fun self =>
    mk_image (file self) v (silicon_revision self) (checksum_type self)
             (firmware self)).

Definition ior_silicon_id (v : Z) : M image unit :=
  old <~ gets silicon_id ;;
  new <~ lift (ior old v) ;;
  set_silicon_id new.

Definition set_silicon_revision (v : option Z) : M image unit :=
  modify (fun self =>
    mk_image (file self) (silicon_id self) v (checksum_type self)
             (firmware self)).

Definition set_checksum_type (v : option Z) : M image unit :=
  modify (fun self =>
    mk_image (file self) (silicon_id self) (silicon_revision self) v
             (firmware self)).

Definition set_firmware (v : option (list Bootloader.row)) : M image unit :=
  modify (fun self =>
    mk_image (file self) (silicon_id self) (silicon_revision self)
             (checksum_type self) v).

Definition CRLF : list ascii := ["013"%char; "010"%char].

(** The body of the [for line in lines] loop, up to the [append]. *)
Definition parse_line (line : string) : result Bootloader.row :=
  line <- binascii.a2b_hex
            (Py.rstrip (Py.slice (list_ascii_of_string line) (Some 1) None) CRLF) ;;
  array_id <- Py.getitem line 0 ;;
  r1 <- Py.getitem line 1 ;;
  r2 <- Py.getitem line 2 ;;
  let row_number := Z.lor (Z.shiftl r1 8) r2 in
  l3 <- Py.getitem line 3 ;;
  l4 <- Py.getitem line 4 ;;
  let data_length := Z.lor (Z.shiftl l3 8) l4 in
  let data := Py.slice line (Some 5) (Some (5 + data_length)) in
  checksum <- Py.getitem line (5 + data_length) ;;
  let checksum_calculated := _checksum (Py.slice line None (Some (-1))) in
  _ <- assert (checksum =? checksum_calculated) line_checksum ;;
  Ok (array_id, row_number, data).

(** The loop itself: [firmware] is the list built so far. *)
Fixpoint parse_lines (lines : list string) (firmware : list Bootloader.row)
  : result (list Bootloader.row) :=
  match lines with
  | [] => Ok firmware
  | line :: lines' =>
      r <- parse_line line ;;
      parse_lines lines' (firmware ++ [r])
  end.

Definition parse : M image unit :=
  lines <~ gets file ;;
  popped <~ lift (Py.pop0 lines) ;;
  let header_line := Py.rstrip (list_ascii_of_string (fst popped)) CRLF in
  let lines := snd popped in
  header <~ lift (binascii.a2b_hex header_line) ;;
  h3 <~ lift (Py.getitem header 3) ;;
  _ <~ set_silicon_id (Some h3) ;;
  h2 <~ lift (Py.getitem header 2) ;;
  _ <~ ior_silicon_id (Z.shiftl h2 8) ;;
  h1 <~ lift (Py.getitem header 1) ;;
  _ <~ ior_silicon_id (Z.shiftl h1 16) ;;
  h0 <~ lift (Py.getitem header 0) ;;
  _ <~ ior_silicon_id (Z.shiftl h0 24) ;;
  h4 <~ lift (Py.getitem header 4) ;;
  _ <~ set_silicon_revision (Some h4) ;;
  h5 <~ lift (Py.getitem header 5) ;;
  _ <~ set_checksum_type (Some h5) ;;
  firmware <~ lift (parse_lines lines []) ;;
  set_firmware (Some firmware).

End Cyacd.

(** ** main

    The entry point after its arguments are read: [vid] and [pid] are the
    two numbers of the command line, [enumeration] what [hid.enumerate()]
    returns, [device] the handle that [Bootloader(vid, pid)] opens and
    [firmware_file] the lines of the firmware file. *)

Module Main.

(** The two entries of an enumerated device that [main] looks at. *)
Record enumerated : Type := mk_enumerated {
  vendor_id : Z;
  product_id : Z
}.

(** How the run ends: normally, by [sys.exit], or by an exception nobody
    catches. *)
Inductive outcome : Type :=
| Finished
| SystemExit (code : Z)
| Uncaught (e : exn).

(** The objects [main] has created when it ends. *)
Record final : Type := mk_final {
  ending : outcome;
  bootloader : option Bootloader.session;
  firmware : option Cyacd.image
}.

(** [a == b] on attributes that hold an integer or [None]. *)
Definition py_eq (a b : option Z) : bool :=
  match a, b with
  | Some x, Some y => x =? y
  | None, None => true
  | _, _ => false
  end.

(** The [for enumerated in hid.enumerate()] loop with its [break]. *)
Fixpoint found (enumeration : list enumerated) (vid pid : Z) : bool :=
  match enumeration with
  | [] => false
  | e :: rest =>
      if (vendor_id e =? vid) && (product_id e =? pid) then true
      else found rest vid pid
  end.

(** [bootloader.flash(firmware)]: the method iterates [firmware.firmware]. *)
Definition flash (firmware : Cyacd.image) : M Bootloader.session unit :=
  match Cyacd.firmware firmware with
  | Some firmware_data => Bootloader.flash firmware_data
  | None => lift (Raise TypeError)
  end.

Definition main (vid pid : Z) (enumeration : list enumerated)
           (device : hid.device) (firmware_file : list string) : final :=
  if found enumeration vid pid then
    let bootloader := Bootloader.__init__ device in
    match Bootloader.enter_bootloader bootloader with
    | (Raise e, bootloader) => mk_final (Uncaught e) (Some bootloader) None
    | (Ok _, bootloader) =>
        let firmware := Cyacd.__init__ firmware_file in
        match Cyacd.parse firmware with
        | (Raise e, firmware) =>
            mk_final (Uncaught e) (Some bootloader) (Some firmware)
        | (Ok _, firmware) =>
            let flashed :=
              if py_eq (Bootloader.jtag_id bootloader)
                       (Cyacd.silicon_id firmware)
                 && py_eq (Bootloader.device_revision bootloader)
                          (Cyacd.silicon_revision firmware)
              then flash firmware bootloader
              else (Ok tt, bootloader) in
            match flashed with
            | (Raise e, bootloader) =>
                mk_final (Uncaught e) (Some bootloader) (Some firmware)
            | (Ok _, bootloader) =>
                match Bootloader.exit_bootloader bootloader with
                | (Raise e, bootloader) =>
                    mk_final (Uncaught e) (Some bootloader) (Some firmware)
                | (Ok _, bootloader) =>
                    mk_final Finished (Some bootloader) (Some firmware)
                end
            end
        end
    end
  else
    mk_final (SystemExit 1) None None.

End Main.

(** * Vocabulary of the specification

    Definitions used to state the properties; those that restate the
    specification's wording say so. *)

(** The sum of a byte sequence. *)
Definition total (l : list Z) : Z := fold_right Z.add 0 l.

Definition is_byte (b : Z) : Prop := 0 <= b <= 255.

(** The wire frame as the specification lays it out: start marker, command,
    length (little-endian), payload, checksum (little-endian) over all that
    precedes it, end marker. *)
Definition frame_body (command : Z) (payload : list Z) : list Z :=
  [0x01; command; Py.len payload mod 256; Py.len payload / 256] ++ payload.

Definition spec_checksum (bytes : list Z) : Z := (- total bytes) mod 65536.

Definition frame (command : Z) (payload : list Z) : list Z :=
  let cs := spec_checksum (frame_body command payload) in
  frame_body command payload ++ [cs mod 256; cs / 256; 0x17].

(** A status byte the table knows. *)
Definition known_status (code : Z) : Prop :=
  In code (map fst Bootloader.STATUSES).

(** The bytes the device returns to the [read] that follows writing
    [packet] in state [self], and the session after that exchange. *)
Definition next_reply (self : Bootloader.session) (packet : list Z) : list Z :=
  hid.reply (Bootloader._device self)
    (hid.io_log (Bootloader._device self) ++ [hid.Wrote packet]).

Definition after_exchange (self : Bootloader.session) (packet : list Z)
  : Bootloader.session :=
  Bootloader.mk_session
    (hid.mk_device
       (hid.io_log (Bootloader._device self)
          ++ [hid.Wrote packet; hid.Read 64 (next_reply self packet)])
       (hid.reply (Bootloader._device self)))
    (Bootloader.jtag_id self)
    (Bootloader.device_revision self)
    (Bootloader.bootloader_revision self).

(** The log of a session's device. *)
Definition log_of (self : Bootloader.session) : list hid.io_event :=
  hid.io_log (Bootloader._device self).

(** A device that answers every read with the same bytes. *)
Definition constant_device (raw : list Z) : hid.device :=
  hid.mk_device [] (fun _ => raw).

(** A well-formed response frame: success, no payload. *)
Definition ack : list Z := [0x01; 0x00; 0; 0; 0xff; 0xff; 0x17].

(** A device that answers the enter command with identity bytes 1..8. *)
Definition identity_device : hid.device :=
  constant_device (frame 0x00 [1; 2; 3; 4; 5; 6; 7; 8]).

(** A device whose answers carry the status BOOTLOADER_ERR_CMD. *)
Definition refusing_device : hid.device :=
  constant_device (frame 0x05 []).

(** *** Flashing *)

(** The two commands the flashing loop issues. *)
Inductive call : Type :=
| SendData (chunk : list Z)
| ProgramRow (array_id row_number : Z) (chunk : list Z).

Definition command_of (c : call) : Z :=
  match c with
  | SendData _ => 0x37
  | ProgramRow _ _ _ => 0x39
  end.

Definition payload_of (c : call) : list Z :=
  match c with
  | SendData chunk => chunk
  | ProgramRow array_id row_number chunk =>
      [array_id; Z.land row_number 0xff; Z.shiftr row_number 8] ++ chunk
  end.

Definition chunk_of (c : call) : list Z :=
  match c with
  | SendData chunk => chunk
  | ProgramRow _ _ chunk => chunk
  end.

Definition is_send_data (c : call) : bool :=
  match c with
  | SendData _ => true
  | ProgramRow _ _ _ => false
  end.

(** The packet a call puts on the wire. *)
Definition wire (c : call) : list Z := frame (command_of c) (payload_of c).

(** Making a call the way [flash] makes it: the returned boolean is dropped. *)
Definition issue (c : call) : M Bootloader.session unit :=
  match c with
  | SendData chunk => _ <~ Bootloader.send_data chunk ;; ret tt
  | ProgramRow array_id row_number chunk =>
      _ <~ Bootloader.program_row array_id row_number chunk ;; ret tt
  end.

(** The [i]-th 48-byte slice of [data]. *)
Definition chunk_at (data : list Z) (i : nat) : list Z :=
  firstn 48 (skipn (48 * i) data).

(** The row-splitting rule in the specification's words: below 48 bytes one
    [programRow]; otherwise [full] chunks by [sendData] and the [rem]-byte
    remainder by [programRow] when [rem > 0], and [full - 1] chunks by
    [sendData] and the last 48 bytes by [programRow] when [rem = 0]. *)
Definition spec_row_calls (r : Bootloader.row) : list call :=
  let '(array_id, row_number, data) := r in
  let full := Py.len data / 48 in
  let rem := Py.len data mod 48 in
  if Py.len data <? 48 then [ProgramRow array_id row_number data]
  else if 0 <? rem then
    map (fun i => SendData (chunk_at data i)) (seq 0 (Z.to_nat full))
      ++ [ProgramRow array_id row_number (skipn (48 * Z.to_nat full) data)]
  else
    map (fun i => SendData (chunk_at data i)) (seq 0 (Z.to_nat (full - 1)))
      ++ [ProgramRow array_id row_number
            (skipn (48 * Z.to_nat (full - 1)) data)].

(** The packets written to the device, in order. *)
Definition writes_of (log : list hid.io_event) : list (list Z) :=
  flat_map (fun e => match e with
                     | hid.Wrote packet => [packet]
                     | hid.Read _ _ => []
                     end) log.

(** A device all of whose answers decode. *)
Definition responsive (d : hid.device) : Prop :=
  forall history, exists r,
    Bootloader._parse_response (hid.reply d history) = Ok r.

(** The largest payload each call may carry in a flashing run. *)
Definition payload_bound (c : call) : Z :=
  if is_send_data c then 48 else 3 + 48.

(** Exceptions other than the failed payload-size assertion. *)
Definition not_payload_size {A} (r : result A) : Prop :=
  match r with
  | Ok _ => True
  | Raise e => e <> AssertionError payload_size
  end.

(** A two-row image: 100 bytes, then 96 bytes. *)
Definition sample_firmware : list Bootloader.row :=
  [ (0, 1, repeat 0xaa 100); (0, 2, repeat 0x55 96) ].

(** *** Post-exit behaviour *)


(** *** Firmware lines *)

(** The bytes of a record line: first character dropped, line ending
    stripped, hexadecimal decoded. *)
Definition decoded (line : string) : result (list Z) :=
  binascii.a2b_hex
    (Py.rstrip (Py.slice (list_ascii_of_string line) (Some 1) None) Cyacd.CRLF).

Definition decoded_header (line : string) : result (list Z) :=
  binascii.a2b_hex (Py.rstrip (list_ascii_of_string line) Cyacd.CRLF).

(** The data length a record declares in its bytes 3 and 4, big-endian. *)
Definition declared_length (l : list Z) : Z := 256 * nth 3 l 0 + nth 4 l 0.

(** A record laid out as the format says: five bytes of prefix, the
    declared number of data bytes, one checksum byte, nothing more. *)
Definition well_laid_out (l : list Z) : Prop :=
  Py.len l = 5 + declared_length l + 1.

(** The trailing byte is the 8-bit two's-complement negation of the sum of
    the bytes before it. *)
Definition checksum_holds (l : list Z) : Prop :=
  last l 0 = (- total (removelast l)) mod 256.

Definition checksum_holdsb (l : list Z) : bool :=
  last l 0 =? (- total (removelast l)) mod 256.

(** The row a record stands for. *)
Definition row_of (l : list Z) : Bootloader.row :=
  (nth 0 l 0,
   256 * nth 1 l 0 + nth 2 l 0,
   firstn (Z.to_nat (declared_length l)) (skipn 5 l)).

(** A record with one byte too many after its checksum. *)
Definition surplus_line : string := ":02000000007F09".

(** A small image: header, then two records with 2 and 0 data bytes. *)
Definition sample_file : list string :=
  [ "0001020304AA"%string;
    ":0100050002AABB93"%string;
    ":0100060000F9"%string ].

(** *** Received frames *)

(** A received buffer laid out as a frame: status byte, length, payload, two
    checksum bytes, a closing byte, and whatever follows it in the buffer. *)
Definition received (code : Z) (payload : list Z) (c0 c1 closing : Z)
           (padding : list Z) : list Z :=
  frame_body code payload ++ [c0; c1; closing] ++ padding.

(** *** What a session keeps *)

(** Two sessions with the same learned identity on the same device. *)
Definition same_identity (s s' : Bootloader.session) : Prop :=
  Bootloader.jtag_id s' = Bootloader.jtag_id s /\
  Bootloader.device_revision s' = Bootloader.device_revision s /\
  Bootloader.bootloader_revision s' = Bootloader.bootloader_revision s /\
  hid.reply (Bootloader._device s') = hid.reply (Bootloader._device s).

(** Four payload bytes read little-endian, a missing byte counting as 0. *)
Definition identity_word (payload : list Z) : Z :=
  Z.lor (Z.lor (Z.lor (nth 0 payload 0) (Z.shiftl (nth 1 payload 0) 8))
           (Z.shiftl (nth 2 payload 0) 16))
    (Z.shiftl (nth 3 payload 0) 24).

(** A row as the file format can give it: a byte, a 16-bit row number,
    data bytes. *)
Definition well_typed_row (r : Bootloader.row) : Prop :=
  let '(array_id, row_number, data) := r in
  is_byte array_id /\ 0 <= row_number < 65536 /\ Forall is_byte data.

(** *** Runs of [main] *)

(** An image for the device that [identity_device] stands for: silicon id
    0x04030201, revision 0x05, one row of two bytes. *)
Definition matching_file : list string :=
  [ "040302010500"%string; ":0100050002AABB93"%string ].

(** The same header over a record whose checksum byte is wrong. *)
Definition corrupt_file : list string :=
  [ "040302010500"%string; ":0100050002AABB94"%string ].

Definition one_device (vid pid : Z) : list Main.enumerated :=
  [ Main.mk_enumerated vid pid ].

(** * Facts *)

(** ** Results and sequences *)

Lemma len_app {A} (l1 l2 : list A) : Py.len (l1 ++ l2) = Py.len l1 + Py.len l2.
Proof. unfold Py.len. rewrite length_app. lia. Qed.

Lemma len_nonneg {A} (l : list A) : 0 <= Py.len l.
Proof. unfold Py.len. lia. Qed.

Lemma len_cons {A} (x : A) (l : list A) : Py.len (x :: l) = 1 + Py.len l.
Proof. unfold Py.len. simpl List.length. lia. Qed.

Lemma getitem_in_range (l : list Z) (i : Z) :
  0 <= i < Py.len l -> Py.getitem l i = Ok (nth (Z.to_nat i) l 0).
Proof.
  intros Hi. unfold Py.getitem.
  destruct (i <? 0) eqn:E; [apply Z.ltb_lt in E; lia|].
  rewrite E. simpl.
  destruct (Py.len l <=? i) eqn:E2; [apply Z.leb_le in E2; lia|reflexivity].
Qed.

Lemma getitem_out_of_range (l : list Z) (i : Z) :
  Py.len l <= i -> Py.getitem l i = Raise IndexError.
Proof.
  intros Hi. pose proof (len_nonneg l). unfold Py.getitem.
  destruct (i <? 0) eqn:E; [apply Z.ltb_lt in E; lia|].
  rewrite E. simpl.
  destruct (Py.len l <=? i) eqn:E2; [reflexivity|apply Z.leb_gt in E2; lia].
Qed.

Lemma getitem_app_right (l1 l2 : list Z) (j : Z) :
  0 <= j -> Py.getitem (l1 ++ l2) (Py.len l1 + j) = Py.getitem l2 j.
Proof.
  intros Hj. pose proof (len_nonneg l1).
  destruct (Z_lt_le_dec j (Py.len l2)) as [Hlt|Hge].
  - rewrite !getitem_in_range by (rewrite ?len_app; lia).
    f_equal. rewrite app_nth2 by (unfold Py.len in *; lia).
    f_equal. unfold Py.len. lia.
  - rewrite !getitem_out_of_range by (rewrite ?len_app; lia). reflexivity.
Qed.

Lemma slice_inside {A} (l : list A) (a b : Z) :
  0 <= a -> a <= b -> b <= Py.len l ->
  Py.slice l (Some a) (Some b)
  = firstn (Z.to_nat (b - a)) (skipn (Z.to_nat a) l).
Proof.
  intros Ha Hab Hb. unfold Py.slice, Py.clamp.
  destruct (a <? 0) eqn:Ea; [apply Z.ltb_lt in Ea; lia|].
  destruct (b <? 0) eqn:Eb; [apply Z.ltb_lt in Eb; lia|].
  rewrite !Z.min_l by lia. reflexivity.
Qed.

Lemma slice_prefix {A} (l : list A) (b : Z) :
  0 <= b -> b <= Py.len l ->
  Py.slice l None (Some b) = firstn (Z.to_nat b) l.
Proof.
  intros Hb Hl. unfold Py.slice, Py.clamp.
  destruct (b <? 0) eqn:Eb; [apply Z.ltb_lt in Eb; lia|].
  rewrite Z.min_l by lia. rewrite Z.sub_0_r. reflexivity.
Qed.

Lemma firstn_len_app {A} (l1 l2 : list A) :
  firstn (Z.to_nat (Py.len l1)) (l1 ++ l2) = l1.
Proof.
  unfold Py.len. rewrite Nat2Z.id.
  rewrite firstn_app, Nat.sub_diag, firstn_all. simpl. apply app_nil_r.
Qed.

Lemma skipn_len_app {A} (l1 l2 : list A) :
  skipn (Z.to_nat (Py.len l1)) (l1 ++ l2) = l2.
Proof.
  unfold Py.len. rewrite Nat2Z.id.
  rewrite skipn_app, Nat.sub_diag, skipn_all. reflexivity.
Qed.

(** ** Checksums *)

Lemma fold_left_add (l : list Z) (a : Z) :
  fold_left (fun checksum byte => checksum + byte) l a = a + total l.
Proof.
  revert a. induction l as [|x l IH]; intros a; simpl.
  - lia.
  - rewrite IH. lia.
Qed.

Lemma negate_and_mask (s : Z) (n : Z) :
  0 <= n -> Z.land (Z.lnot s + 1) (Z.ones n) = (- s) mod 2 ^ n.
Proof.
  intros Hn. rewrite Z.land_ones by assumption.
  f_equal. unfold Z.lnot. lia.
Qed.

Lemma bootloader_checksum_spec (bytes : list Z) :
  Bootloader._checksum bytes = spec_checksum bytes.
Proof.
  unfold Bootloader._checksum, spec_checksum.
  rewrite fold_left_add. simpl (0 + _).
  change 0xffff with (Z.ones 16). rewrite negate_and_mask by lia.
  reflexivity.
Qed.

Lemma cyacd_checksum_spec (bytes : list Z) :
  Cyacd._checksum bytes = (- total bytes) mod 256.
Proof.
  unfold Cyacd._checksum.
  rewrite fold_left_add. simpl (0 + _).
  change 0xff with (Z.ones 8). rewrite negate_and_mask by lia.
  reflexivity.
Qed.

Lemma fold_left_append {A} (l : list A) (acc : list A) :
  fold_left (fun packet byte => packet ++ [byte]) l acc = acc ++ l.
Proof.
  revert acc. induction l as [|x l IH]; intros acc; simpl.
  - symmetry. apply app_nil_r.
  - rewrite IH, <- app_assoc. reflexivity.
Qed.

Lemma land_byte (x : Z) : Z.land x 0xff = x mod 256.
Proof. change 0xff with (Z.ones 8). rewrite Z.land_ones by lia. reflexivity. Qed.

Lemma shiftr_byte (x : Z) : Z.shiftr x 8 = x / 256.
Proof. rewrite Z.shiftr_div_pow2 by lia. reflexivity. Qed.

(** [_make_packet] builds the frame of the specification, or fails its
    assertion when the payload is longer than 57 bytes. *)
Lemma make_packet_frame (command : Z) (payload : list Z) :
  Bootloader._make_packet command payload
  = if Py.len payload <=? 57
    then Ok (frame command payload)
    else Raise (AssertionError payload_size).
Proof.
  unfold Bootloader._make_packet.
  change (64 - 7) with 57.
  destruct (Py.len payload <=? 57); simpl; [|reflexivity].
  rewrite fold_left_append.
  rewrite bootloader_checksum_spec.
  rewrite !land_byte, !shiftr_byte.
  unfold frame, frame_body. simpl.
  rewrite <- !app_assoc. reflexivity.
Qed.

(** C5: the packet checksum is the two's-complement negation of the byte sum
    modulo 65536: it lies in [0, 65535] and adding it to the sum gives 0
    modulo 65536.  In an encoded packet it is computed over the bytes from
    the start marker through the payload and stored low byte first, just
    before the end marker. *)
Theorem packet_checksum_negates_sum (bytes : list Z) :
  0 <= Bootloader._checksum bytes <= 65535 /\
  Bootloader._checksum bytes = (- total bytes) mod 65536 /\
  (total bytes + Bootloader._checksum bytes) mod 65536 = 0 /\
  forall command : Z,
    let body := [0x01; command; Py.len bytes mod 256; Py.len bytes / 256] ++ bytes in
    let cs := Bootloader._checksum body in
    0 <= cs mod 256 <= 255 /\ 0 <= cs / 256 <= 255 /\
    cs = cs mod 256 + 256 * (cs / 256) /\
    Bootloader._make_packet command bytes
    = if Py.len bytes <=? 57
      then Ok (body ++ [cs mod 256; cs / 256; 0x17])
      else Raise (AssertionError payload_size).
Proof.
  rewrite bootloader_checksum_spec. unfold spec_checksum.
  pose proof (Z.mod_pos_bound (- total bytes) 65536 ltac:(lia)) as Hb.
  split; [lia|]. split; [reflexivity|]. split.
  { rewrite Zplus_mod_idemp_r.
    replace (total bytes + - total bytes) with 0 by lia. reflexivity. }
  intros command.
  set (body := [0x01; command; Py.len bytes mod 256; Py.len bytes / 256] ++ bytes).
  set (cs := Bootloader._checksum body).
  assert (Hcs : 0 <= cs < 65536).
  { subst cs. rewrite bootloader_checksum_spec. unfold spec_checksum.
    apply Z.mod_pos_bound; lia. }
  pose proof (Z.mod_pos_bound cs 256 ltac:(lia)) as Hlo.
  pose proof (Z.div_mod cs 256 ltac:(lia)) as Hdm.
  assert (Hhi : 0 <= cs / 256 < 256).
  { split; [apply Z.div_pos; lia|apply Z.div_lt_upper_bound; lia]. }
  split; [lia|]. split; [lia|]. split; [lia|].
  rewrite make_packet_frame. subst cs body.
  rewrite bootloader_checksum_spec. reflexivity.
Qed.

Example make_packet_enter :
  Bootloader._make_packet 0x38 [] = Ok [0x01; 0x38; 0; 0; 0xc7; 0xff; 0x17].
Proof. reflexivity. Qed.

Example parse_response_success :
  Bootloader._parse_response [0x01; 0x00; 0; 0; 0xff; 0xff; 0x17]
  = Ok (Bootloader.mk_response "CYRET_SUCCESS" [] true).
Proof. reflexivity. Qed.

Example parse_header_example :
  let img := snd (Cyacd.parse (Cyacd.__init__ ["0001020304AA"%string])) in
  Cyacd.silicon_id img = Some 0x00010203 /\
  Cyacd.silicon_revision img = Some 0x04 /\
  Cyacd.checksum_type img = Some 0xAA /\
  Cyacd.firmware img = Some [].
Proof. vm_compute. repeat split. Qed.

(** ** Decoding *)

Lemma dict_get_missing {V} (d : list (Z * V)) (k : Z) :
  ~ In k (map fst d) -> Py.dict_get d k = Raise (KeyError k).
Proof.
  induction d as [|[k' v] d IH]; simpl; intros Hk.
  - reflexivity.
  - destruct (k' =? k) eqn:E.
    + apply Z.eqb_eq in E. tauto.
    + apply IH. tauto.
Qed.

Lemma dict_get_found {V} (d : list (Z * V)) (k : Z) (v : V) :
  Py.dict_get d k = Ok v -> In k (map fst d).
Proof.
  induction d as [|[k' v'] d IH]; simpl; intros H.
  - discriminate.
  - destruct (k' =? k) eqn:E.
    + apply Z.eqb_eq in E. auto.
    + auto.
Qed.

(** Every frame that starts with the start marker and carries a status byte
    outside the table makes [_parse_response] raise [KeyError]. *)
Lemma parse_response_unknown_status (raw : list Z) (code : Z) :
  Py.getitem raw 0 = Ok 0x01 ->
  Py.getitem raw 1 = Ok code ->
  ~ known_status code ->
  Bootloader._parse_response raw = Raise (KeyError code).
Proof.
  intros H0 H1 Hk. unfold Bootloader._parse_response.
  rewrite H0. cbn [rbind]. change (1 =? 1) with true. cbn [assert rbind].
  rewrite H1. cbn [rbind].
  rewrite (dict_get_missing _ _ Hk). reflexivity.
Qed.

(** A decoded response always carries a status of the table. *)
Lemma parse_response_status_known (raw : list Z) (r : Bootloader.response) :
  Bootloader._parse_response raw = Ok r ->
  exists code, Py.getitem raw 1 = Ok code /\ known_status code.
Proof.
  unfold Bootloader._parse_response. intros H.
  destruct (Py.getitem raw 0) as [sop|]; [|discriminate]. cbn [rbind] in H.
  destruct (assert (sop =? 1) start_marker); [|discriminate]. cbn [rbind] in H.
  destruct (Py.getitem raw 1) as [code|]; [|discriminate]. cbn [rbind] in H.
  destruct (Py.dict_get Bootloader.STATUSES code) as [name|] eqn:E;
    [|discriminate].
  exists code. split; [reflexivity|]. exact (dict_get_found _ _ _ E).
Qed.

Lemma lor_shiftl (a b n : Z) :
  0 <= n -> 0 <= a < 2 ^ n -> Z.lor a (Z.shiftl b n) = a + b * 2 ^ n.
Proof.
  intros Hn Ha.
  assert (Hland : Z.land a (Z.shiftl b n) = 0).
  { apply Z.bits_inj'. intros m Hm.
    rewrite Z.land_spec, Z.bits_0.
    destruct (Z_lt_le_dec m n) as [Hlt|Hge].
    - rewrite Z.shiftl_spec_low by assumption. apply andb_false_r.
    - rewrite <- (Z.mod_small a (2 ^ n)) by assumption.
      rewrite Z.mod_pow2_bits_high by lia. reflexivity. }
  rewrite <- Z.lxor_lor by assumption.
  rewrite <- Z.add_nocarry_lxor by assumption.
  rewrite Z.shiftl_mul_pow2 by assumption. reflexivity.
Qed.

Lemma getitem_at (l1 l2 : list Z) (i j : Z) :
  i = Py.len l1 + j -> 0 <= j ->
  Py.getitem (l1 ++ l2) i = Py.getitem l2 j.
Proof. intros -> Hj. apply getitem_app_right. assumption. Qed.

(** Decoding an encoded frame, when the command byte happens to be a key of
    the status table. *)
Lemma parse_response_frame (command : Z) (payload : list Z) (name : string) :
  Py.len payload <= 57 ->
  Py.dict_get Bootloader.STATUSES command = Ok name ->
  Bootloader._parse_response (frame command payload)
  = Ok (Bootloader.mk_response name payload true).
Proof.
  intros Hlen Hname. pose proof (len_nonneg payload) as Hn.
  unfold frame, frame_body.
  rewrite Z.mod_small by lia. rewrite Z.div_small by lia.
  set (n := Py.len payload) in *.
  set (head := [1; command; n; 0]).
  set (cs := spec_checksum (head ++ payload)).
  assert (Hcs : 0 <= cs < 65536) by (apply Z.mod_pos_bound; lia).
  set (tail := [cs mod 256; cs / 256; 23]).
  assert (Hlen_hp : Py.len (head ++ payload) = 4 + n)
    by (rewrite len_app; reflexivity).
  assert (Hlen_all : Py.len ((head ++ payload) ++ tail) = 4 + n + 3)
    by (rewrite len_app, Hlen_hp; reflexivity).
  assert (Hhead : forall i, 0 <= i < 4 ->
            Py.getitem ((head ++ payload) ++ tail) i = Py.getitem head i).
  { intros i Hi. rewrite <- app_assoc.
    rewrite !getitem_in_range by (try rewrite len_app; change (Py.len head) with 4; pose proof (len_nonneg (payload ++ tail)); lia).
    f_equal. apply app_nth1. simpl. lia. }
  assert (Htail : forall j, 0 <= j ->
            Py.getitem ((head ++ payload) ++ tail) (4 + n + j)
            = Py.getitem tail j).
  { intros j Hj. apply getitem_at; lia. }
  unfold Bootloader._parse_response.
  rewrite !Hhead by lia. cbn [Py.getitem head]. 
  change (Py.getitem head 0) with (@Ok Z 1).
  change (Py.getitem head 1) with (Ok command).
  change (Py.getitem head 3) with (@Ok Z 0).
  change (Py.getitem head 2) with (Ok n).
  cbn [rbind]. change (1 =? 1) with true. cbn [assert rbind].
  rewrite Hname. cbn [rbind].
  change (Z.shiftl 0 8) with 0. rewrite Z.lor_0_l.
  assert (Htail0 : Py.getitem ((head ++ payload) ++ tail) (4 + n)
                   = Py.getitem tail 0)
    by (apply getitem_at; lia).
  rewrite Htail0, !Htail by lia.
  change (Py.getitem tail 0) with (Ok (cs mod 256)).
  change (Py.getitem tail 1) with (Ok (cs / 256)).
  change (Py.getitem tail 2) with (@Ok Z 23).
  cbn [rbind]. change (23 =? 23) with true. cbn [assert rbind].
  assert (Hpayload :
    (if n >? 0
     then Py.slice ((head ++ payload) ++ tail) (Some 4) (Some (4 + n))
     else []) = payload).
  { destruct (n >? 0) eqn:E.
    - rewrite slice_inside by lia.
      rewrite <- app_assoc.
      change (skipn (Z.to_nat 4) (head ++ payload ++ tail))
        with (payload ++ tail).
      replace (4 + n - 4) with (Py.len payload) by (subst n; lia).
      apply firstn_len_app.
    - assert (n = 0) by lia.
      destruct payload; [reflexivity|].
      subst n. rewrite len_cons in *. pose proof (len_nonneg payload). lia. }
  rewrite Hpayload.
  rewrite slice_prefix by lia.
  rewrite <- Hlen_hp, firstn_len_app.
  rewrite bootloader_checksum_spec. fold cs.
  rewrite lor_shiftl by (try apply Z.mod_pos_bound; lia).
  replace (cs mod 256 + cs / 256 * 2 ^ 8) with cs
    by (pose proof (Z.div_mod cs 256 ltac:(lia)); lia).
  rewrite Z.eqb_refl. reflexivity.
Qed.

(** ** Commands *)

Lemma send_command_run (command : Z) (payload : list Z)
      (self : Bootloader.session) :
  Bootloader.send_command command payload self
  = if Py.len payload <=? 57
    then (Bootloader._parse_response (next_reply self (frame command payload)),
          after_exchange self (frame command payload))
    else (Raise (AssertionError payload_size), self).
Proof.
  unfold Bootloader.send_command, bind, lift.
  rewrite make_packet_frame.
  destruct (Py.len payload <=? 57); [|reflexivity].
  unfold Bootloader.device_write, Bootloader.device_read, modify, hid.read,
    hid.write, ret, after_exchange, next_reply.
  cbn [Bootloader._device hid.io_log hid.reply Bootloader.jtag_id
       Bootloader.device_revision Bootloader.bootloader_revision].
  rewrite <- app_assoc. cbn [app].
  destruct (Bootloader._parse_response _); reflexivity.
Qed.

Lemma send_command_keeps_identity (command : Z) (payload : list Z)
      (self : Bootloader.session) :
  let self' := snd (Bootloader.send_command command payload self) in
  Bootloader.jtag_id self' = Bootloader.jtag_id self /\
  Bootloader.device_revision self' = Bootloader.device_revision self /\
  Bootloader.bootloader_revision self' = Bootloader.bootloader_revision self.
Proof.
  rewrite send_command_run.
  destruct (Py.len payload <=? 57); cbn; auto.
Qed.

Lemma is_success_iff (r : Bootloader.response) :
  Bootloader.is_success r = true <->
  Bootloader.checksum_ok r = true /\
  Bootloader.status r = "CYRET_SUCCESS"%string.
Proof.
  unfold Bootloader.is_success.
  rewrite andb_true_iff, String.eqb_eq. reflexivity.
Qed.

(** The three row commands have the same ending: the boolean they return is
    [is_success] of the response. *)
Lemma report_success (m : M Bootloader.session Bootloader.response)
      (self self' : Bootloader.session) (r : Bootloader.response) :
  m self = (Ok r, self') ->
  (response <~ m ;;
   if Bootloader.is_success response then ret true else ret false) self
  = (Ok (Bootloader.is_success r), self').
Proof.
  intros H. unfold bind. rewrite H.
  destruct (Bootloader.is_success r); reflexivity.
Qed.

(** The ending the three row commands share, run on any session. *)
Lemma report_run (m : M Bootloader.session Bootloader.response)
      (s : Bootloader.session) :
  (response <~ m ;;
   if Bootloader.is_success response then ret true else ret false) s
  = (r <- fst (m s) ;; Ok (Bootloader.is_success r), snd (m s)).
Proof.
  unfold bind. destruct (m s) as [[r|e] s']; [|reflexivity].
  cbn [fst snd rbind].
  destruct (Bootloader.is_success r); reflexivity.
Qed.

(** C9: each of [erase_row], [send_data] and [program_row], on any session
    and with any arguments, ends in the state in which [send_command] left
    the session and returns [True] exactly when the response it received has
    [checksum_ok] true and the success status; a good status with a bad
    checksum, or a good checksum with another status, gives [False], and
    when no response is received the exception of [send_command] is
    raised. *)
Theorem row_commands_succeed_iff
  (self : Bootloader.session) (array_id row_number : Z) (chunk : list Z) :
  let arguments :=
    [array_id; Z.land row_number 0xff; Z.shiftr row_number 8] in
  let good (r : Bootloader.response) :=
    Bootloader.checksum_ok r = true /\
    Bootloader.status r = "CYRET_SUCCESS"%string in
  let verdict (received : result Bootloader.response * Bootloader.session)
              (call : result bool * Bootloader.session) :=
    snd call = snd received /\
    match fst received with
    | Ok r => exists b, fst call = Ok b /\ (b = true <-> good r)
    | Raise e => fst call = Raise e
    end in
  verdict (Bootloader.send_command 0x34 arguments self)
          (Bootloader.erase_row array_id row_number self) /\
  verdict (Bootloader.send_command 0x37 chunk self)
          (Bootloader.send_data chunk self) /\
  verdict (Bootloader.send_command 0x39 (arguments ++ chunk) self)
          (Bootloader.program_row array_id row_number chunk self).
Proof.
  intros arguments good verdict.
  assert (Hverdict : forall m : M Bootloader.session Bootloader.response,
    verdict (m self)
      ((response <~ m ;;
        if Bootloader.is_success response then ret true else ret false) self)).
  { intros m. unfold verdict. rewrite report_run. cbn [fst snd].
    split; [reflexivity|].
    destruct (fst (m self)) as [r|e]; cbn [rbind]; [|reflexivity].
    exists (Bootloader.is_success r). split; [reflexivity|].
    apply is_success_iff. }
  split; [apply Hverdict|]. split; apply Hverdict.
Qed.

Lemma row_commands_succeed_iff_witness :
  let self := Bootloader.__init__ (constant_device ack) in
  exists b,
    Bootloader.erase_row 0 5 self
    = (Ok b, after_exchange self (frame 0x34 [0; 5; 0])) /\ b = true.
Proof.
  intros self.
  destruct (row_commands_succeed_iff self 0 5 [1; 2; 3])
    as [[Hstate Hresult] _].
  cbn [fst snd] in Hresult. destruct Hresult as (b & Hb & Hiff).
  exists b. split.
  - rewrite (surjective_pairing (Bootloader.erase_row 0 5 self)).
    rewrite Hb, Hstate. reflexivity.
  - apply Hiff. split; reflexivity.
Defined.

(** A success status does not make up for a bad checksum, and a good
    checksum does not make up for an error status. *)
Example send_data_bad_checksum :
  fst (Bootloader.send_data [1; 2; 3]
         (Bootloader.__init__ (constant_device [0x01; 0x00; 0; 0; 0; 0; 0x17])))
  = Ok false.
Proof. reflexivity. Qed.

Example send_data_error_status :
  fst (Bootloader.send_data [1; 2; 3]
         (Bootloader.__init__ (constant_device [0x01; 0x04; 0; 0; 0xfb; 0xff; 0x17])))
  = Ok false.
Proof. reflexivity. Qed.

(** ** Entering the bootloader *)

Lemma little_endian_32 (d0 d1 d2 d3 : Z) :
  is_byte d0 -> is_byte d1 -> is_byte d2 ->
  Z.lor (Z.lor (Z.lor d0 (Z.shiftl d1 8)) (Z.shiftl d2 16)) (Z.shiftl d3 24)
  = d0 + d1 * 2 ^ 8 + d2 * 2 ^ 16 + d3 * 2 ^ 24.
Proof.
  unfold is_byte. intros H0 H1 H2.
  rewrite (lor_shiftl d0 d1 8) by lia.
  rewrite (lor_shiftl _ d2 16) by lia.
  rewrite (lor_shiftl _ d3 24) by lia.
  reflexivity.
Qed.

(** C6: when the response to [enter_bootloader] has a good checksum, the
    success status and at least eight payload bytes, the call returns [True]
    and stores the JTAG id rebuilt little-endian from payload bytes 0-3, the
    device revision from byte 4 and the bootloader revision as bytes 7, 6, 5.
    Payload 01 02 03 04 05 06 07 08 gives JTAG id 0x04030201, revision 0x05
    and bootloader revision [8; 7; 6]. *)
Theorem enter_bootloader_learns_identity
  (self s1 : Bootloader.session) (r : Bootloader.response)
  (d0 d1 d2 d3 d4 d5 d6 d7 : Z) (rest : list Z)
  (Hresponse : Bootloader.send_command 0x38 [] self = (Ok r, s1))
  (Hchecksum : Bootloader.checksum_ok r = true)
  (Hstatus : Bootloader.status r = "CYRET_SUCCESS"%string)
  (Hpayload : Bootloader.data r
              = d0 :: d1 :: d2 :: d3 :: d4 :: d5 :: d6 :: d7 :: rest) :
  let jtag :=
    Z.lor (Z.lor (Z.lor d0 (Z.shiftl d1 8)) (Z.shiftl d2 16)) (Z.shiftl d3 24) in
  Bootloader.enter_bootloader self
  = (Ok true,
     Bootloader.mk_session (Bootloader._device s1)
       (Some jtag) (Some d4) (Some [d7; d6; d5])) /\
  (is_byte d0 -> is_byte d1 -> is_byte d2 -> is_byte d3 ->
   jtag = d0 + d1 * 2 ^ 8 + d2 * 2 ^ 16 + d3 * 2 ^ 24) /\
  (d0 = 1 -> d1 = 2 -> d2 = 3 -> d3 = 4 -> d4 = 5 ->
   d5 = 6 -> d6 = 7 -> d7 = 8 ->
   Bootloader.enter_bootloader self
   = (Ok true,
      Bootloader.mk_session (Bootloader._device s1)
        (Some 0x04030201) (Some 0x05) (Some [0x08; 0x07; 0x06]))).
Proof.
  intros jtag.
  assert (Hrun : Bootloader.enter_bootloader self
    = (Ok true,
       Bootloader.mk_session (Bootloader._device s1)
         (Some jtag) (Some d4) (Some [d7; d6; d5]))).
  { unfold Bootloader.enter_bootloader. unfold bind at 1.
    rewrite Hresponse.
    assert (Hok : Bootloader.is_success r = true)
      by (apply is_success_iff; auto).
    rewrite Hok, Hpayload.
    assert (Hslice : Py.slice (d0 :: d1 :: d2 :: d3 :: d4 :: d5 :: d6 :: d7 :: rest)
                       (Some 5) (Some 8) = [d5; d6; d7]).
    { rewrite slice_inside; [reflexivity|lia|lia|].
      rewrite !len_cons. pose proof (len_nonneg rest). lia. }
    rewrite Hslice.
    pose proof (len_nonneg rest) as Hrest.
    set (payload := d0 :: d1 :: d2 :: d3 :: d4 :: d5 :: d6 :: d7 :: rest).
    assert (Hlen : Py.len payload = 8 + Py.len rest)
      by (unfold payload; rewrite !len_cons; lia).
    assert (G0 : Py.getitem payload 0 = Ok d0)
      by (rewrite getitem_in_range by lia; reflexivity).
    assert (G1 : Py.getitem payload 1 = Ok d1)
      by (rewrite getitem_in_range by lia; reflexivity).
    assert (G2 : Py.getitem payload 2 = Ok d2)
      by (rewrite getitem_in_range by lia; reflexivity).
    assert (G3 : Py.getitem payload 3 = Ok d3)
      by (rewrite getitem_in_range by lia; reflexivity).
    assert (G4 : Py.getitem payload 4 = Ok d4)
      by (rewrite getitem_in_range by lia; reflexivity).
    rewrite G0, G1, G2, G3, G4.
    reflexivity. }
  split; [exact Hrun|]. split.
  - intros. subst jtag. apply little_endian_32; assumption.
  - intros -> -> -> -> -> -> -> ->. exact Hrun.
Qed.

Lemma enter_bootloader_learns_identity_witness :
  let self := Bootloader.__init__ identity_device in
  Bootloader.enter_bootloader self
  = (Ok true,
     Bootloader.mk_session
       (Bootloader._device (after_exchange self (frame 0x38 [])))
       (Some 0x04030201) (Some 0x05) (Some [0x08; 0x07; 0x06])).
Proof.
  intros self.
  apply (proj2 (proj2
    (enter_bootloader_learns_identity self
       (after_exchange self (frame 0x38 []))
       (Bootloader.mk_response "CYRET_SUCCESS" [1; 2; 3; 4; 5; 6; 7; 8] true)
       1 2 3 4 5 6 7 8 [] eq_refl eq_refl eq_refl eq_refl)));
    reflexivity.
Defined.

(** C7: when the response to [enter_bootloader] has a bad checksum or a
    status other than success, the call returns [False] and the JTAG id, the
    device revision and the bootloader revision keep the values they had; on
    a fresh session they are still [None]. *)
Theorem enter_bootloader_failure_sets_nothing
  (self s1 : Bootloader.session) (r : Bootloader.response)
  (Hresponse : Bootloader.send_command 0x38 [] self = (Ok r, s1))
  (Hbad : Bootloader.checksum_ok r = false \/
          Bootloader.status r <> "CYRET_SUCCESS"%string) :
  Bootloader.enter_bootloader self = (Ok false, s1) /\
  Bootloader.jtag_id s1 = Bootloader.jtag_id self /\
  Bootloader.device_revision s1 = Bootloader.device_revision self /\
  Bootloader.bootloader_revision s1 = Bootloader.bootloader_revision self /\
  (forall d : hid.device,
     self = Bootloader.__init__ d ->
     Bootloader.jtag_id s1 = None /\
     Bootloader.device_revision s1 = None /\
     Bootloader.bootloader_revision s1 = None).
Proof.
  assert (Hno : Bootloader.is_success r = false).
  { destruct (Bootloader.is_success r) eqn:E; [|reflexivity].
    apply is_success_iff in E. destruct E as [Hc Hs].
    destruct Hbad as [Hbad|Hbad]; [congruence|contradiction]. }
  pose proof (send_command_keeps_identity 0x38 [] self) as Hkeep.
  rewrite Hresponse in Hkeep. cbn [snd] in Hkeep.
  destruct Hkeep as (Hj & Hd & Hb).
  split.
  { unfold Bootloader.enter_bootloader, bind. rewrite Hresponse, Hno.
    reflexivity. }
  repeat split; try assumption;
    subst self; rewrite ?Hj, ?Hd, ?Hb; reflexivity.
Qed.

Lemma enter_bootloader_failure_sets_nothing_witness :
  let self := Bootloader.__init__ refusing_device in
  Bootloader.enter_bootloader self
  = (Ok false, after_exchange self (frame 0x38 [])) /\
  Bootloader.jtag_id (after_exchange self (frame 0x38 [])) = None.
Proof.
  intros self.
  destruct (enter_bootloader_failure_sets_nothing self
              (after_exchange self (frame 0x38 []))
              (Bootloader.mk_response "BOOTLOADER_ERR_CMD" [] true)
              eq_refl
              (or_intror (fun H : "BOOTLOADER_ERR_CMD"%string
                                  = "CYRET_SUCCESS"%string =>
                 eq_ind "BOOTLOADER_ERR_CMD"%string
                   (fun s => match s with
                             | String "B" _ => True
                             | _ => False
                             end) I _ H)))
    as (Hrun & _ & _ & _ & Hfresh).
  split; [exact Hrun|].
  exact (proj1 (Hfresh refusing_device eq_refl)).
Defined.

(** ** Loops *)

Lemma bind_ext {S A B} (m1 m2 : M S A) (k1 k2 : A -> M S B) :
  (forall s, m1 s = m2 s) -> (forall a s, k1 a s = k2 a s) ->
  forall s, bind m1 k1 s = bind m2 k2 s.
Proof.
  intros Hm Hk s. unfold bind. rewrite Hm.
  destruct (m2 s) as [[a|e] s']; [apply Hk|reflexivity].
Qed.

Lemma bind_ret_tt {S} (m : M S unit) (s : S) :
  bind m (fun _ => ret tt) s = m s.
Proof.
  unfold bind, ret. destruct (m s) as [[[]|e] s']; reflexivity.
Qed.

Lemma for_each_map {S A B} (f : A -> B) (l : list A) (body : B -> M S unit) :
  for_each (map f l) body = for_each l (fun x => body (f x)).
Proof.
  induction l as [|x l IH]; simpl; [reflexivity|].
  rewrite IH. reflexivity.
Qed.

Lemma for_each_ext {S A} (l : list A) (f g : A -> M S unit) :
  (forall x, In x l -> forall s, f x s = g x s) ->
  forall s, for_each l f s = for_each l g s.
Proof.
  induction l as [|x l IH]; intros H s; simpl; [reflexivity|].
  apply bind_ext.
  - apply H. left. reflexivity.
  - intros _. apply IH. intros y Hy. apply H. right. assumption.
Qed.

Lemma bind_assoc {S A B C} (m : M S A) (k1 : A -> M S B) (k2 : B -> M S C)
      (s : S) :
  bind (bind m k1) k2 s = bind m (fun a => bind (k1 a) k2) s.
Proof.
  unfold bind. destruct (m s) as [[a|e] s']; reflexivity.
Qed.

Lemma for_each_app {S A} (l1 l2 : list A) (body : A -> M S unit) (s : S) :
  for_each (l1 ++ l2) body s
  = bind (for_each l1 body) (fun _ => for_each l2 body) s.
Proof.
  revert s. induction l1 as [|x l1 IH]; intros s; simpl.
  - reflexivity.
  - rewrite bind_assoc. apply bind_ext; [reflexivity|].
    intros _ s'. apply IH.
Qed.

(** ** Row splitting *)

Lemma len_skipn {A} (k : nat) (l : list A) :
  Py.len (skipn k l) = Z.max 0 (Py.len l - Z.of_nat k).
Proof. unfold Py.len. rewrite length_skipn. lia. Qed.

Lemma slice_chunk (data : list Z) (k : nat) :
  48 * Z.of_nat k + 48 <= Py.len data ->
  Py.slice data (Some (48 * (0 + Z.of_nat k)))
    (Some (48 * (0 + Z.of_nat k) + 48))
  = chunk_at data k.
Proof.
  intros H. rewrite slice_inside by lia. unfold chunk_at.
  replace (Z.to_nat (48 * (0 + Z.of_nat k) + 48 - 48 * (0 + Z.of_nat k)))
    with 48%nat by lia.
  replace (Z.to_nat (48 * (0 + Z.of_nat k))) with (48 * k)%nat by lia.
  reflexivity.
Qed.

Lemma slice_tail (data : list Z) (start stop : Z) :
  0 <= start -> start <= stop -> stop = Py.len data ->
  Py.slice data (Some start) (Some stop) = skipn (Z.to_nat start) data.
Proof.
  intros H0 H1 H2. rewrite slice_inside by lia.
  apply firstn_all2.
  pose proof (len_skipn (Z.to_nat start) data) as Hl.
  unfold Py.len in *. lia.
Qed.

(** The loop body of [flash] makes exactly the calls of the rule. *)
Lemma flash_row_calls (r : Bootloader.row) (s : Bootloader.session) :
  Bootloader.flash_row r s = for_each (spec_row_calls r) issue s.
Proof.
  destruct r as [[array_id row_number] data].
  unfold Bootloader.flash_row, spec_row_calls.
  change Bootloader.MAX_DATA_LENGTH with 48.
  pose proof (len_nonneg data) as Hn.
  pose proof (Z.div_mod (Py.len data) 48 ltac:(lia)) as Hdm.
  pose proof (Z.mod_pos_bound (Py.len data) 48 ltac:(lia)) as Hrem.
  set (full := Py.len data / 48) in *.
  set (rem := Py.len data mod 48) in *.
  rewrite Z.geb_leb, Z.gtb_ltb.
  destruct (Z.leb_spec 48 (Py.len data)) as [Hbig|Hsmall];
    destruct (Z.ltb_spec (Py.len data) 48) as [Hlt|Hge]; try lia.
  - destruct (Z.ltb_spec 0 rem) as [Hpos|Hzero].
    + rewrite for_each_app. apply bind_ext.
      * intros s'. unfold Py.range. rewrite Z.sub_0_r, !for_each_map.
        apply for_each_ext. intros k Hk s''.
        apply in_seq in Hk. rewrite slice_chunk by nia. reflexivity.
      * intros _ s'. cbn [for_each]. rewrite bind_ret_tt.
        rewrite slice_tail by nia.
        replace (Z.to_nat (48 * full)) with (48 * Z.to_nat full)%nat by lia.
        reflexivity.
    + assert (rem = 0) by lia.
      rewrite for_each_app. apply bind_ext.
      * intros s'. unfold Py.range. rewrite Z.sub_0_r, !for_each_map.
        apply for_each_ext. intros k Hk s''.
        apply in_seq in Hk. rewrite slice_chunk by nia. reflexivity.
      * intros _ s'. cbn [for_each]. rewrite bind_ret_tt.
        rewrite slice_tail by nia.
        replace (Z.to_nat (48 * (full - 1)))
          with (48 * Z.to_nat (full - 1))%nat by lia.
        reflexivity.
  - cbn [for_each]. rewrite bind_ret_tt. reflexivity.
Qed.

Lemma firstn_plus {A} (a b : nat) (l : list A) :
  firstn (a + b) l = firstn a l ++ firstn b (skipn a l).
Proof.
  revert l. induction a as [|a IH]; intros l; simpl.
  - reflexivity.
  - destruct l as [|x l]; simpl.
    + rewrite firstn_nil. reflexivity.
    + rewrite IH. reflexivity.
Qed.

(** The first [k] chunks are 48 bytes each and make up the first [48 * k]
    bytes of the row. *)
Lemma chunks_prefix (data : list Z) (k : nat) :
  (48 * k <= List.length data)%nat ->
  List.concat (map (chunk_at data) (seq 0 k)) = firstn (48 * k) data /\
  Forall (fun c => Py.len c = 48) (map (chunk_at data) (seq 0 k)).
Proof.
  induction k as [|k IH]; intros Hk.
  - split; [reflexivity|constructor].
  - destruct IH as [IHc IHf]; [lia|].
    rewrite seq_S, map_app. cbn [map Nat.add]. split.
    + rewrite concat_app, IHc. cbn [List.concat]. rewrite app_nil_r.
      replace (48 * S k)%nat with (48 * k + 48)%nat by lia.
      rewrite firstn_plus. reflexivity.
    + apply Forall_app. split; [assumption|].
      constructor; [|constructor].
      unfold chunk_at, Py.len. rewrite length_firstn, length_skipn. lia.
Qed.

(** What the rule produces for one row: some 48-byte [sendData] chunks, then
    one [programRow] with what is left, and together they are the row. *)
Lemma spec_row_calls_shape (array_id row_number : Z) (data : list Z) :
  let n := Py.len data in
  exists (chunks : list (list Z)) (last : list Z),
    spec_row_calls (array_id, row_number, data)
    = map SendData chunks ++ [ProgramRow array_id row_number last] /\
    chunks = map (chunk_at data) (seq 0 (List.length chunks)) /\
    Forall (fun c => Py.len c = 48) chunks /\
    List.concat chunks ++ last = data /\
    Py.len chunks
    = (if n <? 48 then 0 else if 0 <? n mod 48 then n / 48 else n / 48 - 1) /\
    Py.len last
    = (if n <? 48 then n else if 0 <? n mod 48 then n mod 48 else 48).
Proof.
  intros n. unfold spec_row_calls. fold n.
  pose proof (len_nonneg data) as Hn. fold n in Hn.
  pose proof (Z.div_mod n 48 ltac:(lia)) as Hdm.
  pose proof (Z.mod_pos_bound n 48 ltac:(lia)) as Hrem.
  assert (Hshape : forall k : nat,
    (48 * k <= List.length data)%nat ->
    let chunks := map (chunk_at data) (seq 0 k) in
    let last := skipn (48 * k) data in
    map (fun i => SendData (chunk_at data i)) (seq 0 k)
      ++ [ProgramRow array_id row_number last]
    = map SendData chunks ++ [ProgramRow array_id row_number last] /\
    chunks = map (chunk_at data) (seq 0 (List.length chunks)) /\
    Forall (fun c => Py.len c = 48) chunks /\
    List.concat chunks ++ last = data /\
    Py.len chunks = Z.of_nat k /\
    Py.len last = n - 48 * Z.of_nat k).
  { intros k Hk chunks last.
    destruct (chunks_prefix data k Hk) as [Hc Hf].
    assert (Hlen : List.length chunks = k)
      by (unfold chunks; rewrite length_map, length_seq; reflexivity).
    repeat split.
    - unfold chunks. rewrite map_map. reflexivity.
    - rewrite Hlen. reflexivity.
    - exact Hf.
    - unfold chunks, last. rewrite Hc. apply firstn_skipn.
    - unfold Py.len. rewrite Hlen. reflexivity.
    - unfold last. rewrite len_skipn. fold n. unfold n, Py.len in *. lia. }
  destruct (Z.ltb_spec n 48) as [Hsmall|Hbig].
  - exists [], data. cbn. repeat split; constructor.
  - destruct (Z.ltb_spec 0 (n mod 48)) as [Hpos|Hzero].
    + destruct (Hshape (Z.to_nat (n / 48))) as (H1 & H2 & H3 & H4 & H5 & H6).
      { unfold n, Py.len in *. nia. }
      eexists _, _. repeat split; try eassumption.
      * rewrite H5. nia.
      * rewrite H6. nia.
    + destruct (Hshape (Z.to_nat (n / 48 - 1))) as (H1 & H2 & H3 & H4 & H5 & H6).
      { unfold n, Py.len in *. nia. }
      eexists _, _. repeat split; try eassumption.
      * rewrite H5. nia.
      * rewrite H6. nia.
Qed.

Lemma spec_row_calls_fit (r : Bootloader.row) :
  Forall (fun c => Py.len (payload_of c) <= payload_bound c) (spec_row_calls r).
Proof.
  destruct r as [[array_id row_number] data].
  destruct (spec_row_calls_shape array_id row_number data)
    as (chunks & last & Hcalls & _ & Hchunks & _ & _ & Hlast).
  rewrite Hcalls. apply Forall_app. split.
  - apply Forall_map. apply (Forall_impl _ (P := fun c => Py.len c = 48)).
    + intros c Hc. cbn. lia.
    + exact Hchunks.
  - constructor; [|constructor].
    cbn [payload_of payload_bound is_send_data]. rewrite len_app.
    change (Py.len [array_id; Z.land row_number 255; Z.shiftr row_number 8])
      with 3.
    pose proof (Z.mod_pos_bound (Py.len data) 48 ltac:(lia)).
    destruct (Py.len data <? 48) eqn:E1; [apply Z.ltb_lt in E1; lia|].
    destruct (0 <? Py.len data mod 48); lia.
Qed.

Lemma payload_bound_le (c : call) : payload_bound c <= 57.
Proof. unfold payload_bound. destruct (is_send_data c); lia. Qed.

(** ** Running the calls *)

Lemma issue_run (c : call) (s : Bootloader.session) :
  Py.len (payload_of c) <= 57 ->
  issue c s
  = (r <- Bootloader._parse_response (next_reply s (wire c)) ;; Ok tt,
     after_exchange s (wire c)).
Proof.
  intros Hfit. apply Z.leb_le in Hfit.
  destruct c as [chunk|array_id row_number chunk];
    unfold issue, Bootloader.send_data, Bootloader.program_row, wire;
    cbn [command_of payload_of] in *;
    unfold bind; rewrite send_command_run, Hfit;
    destruct (Bootloader._parse_response _) as [r|e]; cbn [rbind];
    [destruct (Bootloader.is_success r)| |destruct (Bootloader.is_success r)|];
    reflexivity.
Qed.

Lemma writes_of_app (l1 l2 : list hid.io_event) :
  writes_of (l1 ++ l2) = writes_of l1 ++ writes_of l2.
Proof. apply flat_map_app. Qed.

Lemma for_each_issue_responsive (calls : list call) (s : Bootloader.session) :
  Forall (fun c => Py.len (payload_of c) <= 57) calls ->
  responsive (Bootloader._device s) ->
  exists s',
    for_each calls issue s = (Ok tt, s') /\
    writes_of (log_of s') = writes_of (log_of s) ++ map wire calls /\
    hid.reply (Bootloader._device s') = hid.reply (Bootloader._device s) /\
    Bootloader.jtag_id s' = Bootloader.jtag_id s /\
    Bootloader.device_revision s' = Bootloader.device_revision s /\
    Bootloader.bootloader_revision s' = Bootloader.bootloader_revision s.
Proof.
  intros Hfit. revert s.
  induction Hfit as [|c calls Hc Hfit IH]; intros s Hdev.
  - exists s. cbn. rewrite app_nil_r. repeat split.
  - destruct (Hdev (log_of s ++ [hid.Wrote (wire c)])) as [r Hr].
    destruct (IH (after_exchange s (wire c))) as (s' & Hrun & Hw & Hrep & Hid).
    { exact Hdev. }
    exists s'. split; [|split; [|split]].
    + cbn [for_each]. unfold bind. rewrite issue_run by assumption.
      unfold next_reply. fold (log_of s). rewrite Hr. cbn [rbind]. exact Hrun.
    + rewrite Hw. unfold after_exchange, log_of.
      cbn [Bootloader._device hid.io_log].
      rewrite writes_of_app. cbn [writes_of flat_map app map].
      rewrite <- app_assoc. reflexivity.
    + rewrite Hrep. reflexivity.
    + exact Hid.
Qed.

Lemma for_each_flat_map {S A B} (f : A -> list B) (l : list A)
      (body : B -> M S unit) (s : S) :
  for_each (flat_map f l) body s
  = for_each l (fun x => for_each (f x) body) s.
Proof.
  revert s. induction l as [|x l IH]; intros s; cbn [flat_map for_each].
  - reflexivity.
  - rewrite for_each_app. apply bind_ext; [reflexivity|].
    intros _. exact IH.
Qed.

(** [flash] makes the calls of the rule, row after row. *)
Lemma flash_calls (firmware : list Bootloader.row) (s : Bootloader.session) :
  Bootloader.flash firmware s
  = for_each (flat_map spec_row_calls firmware) issue s.
Proof.
  rewrite for_each_flat_map. unfold Bootloader.flash.
  apply for_each_ext. intros r _. apply flash_row_calls.
Qed.

Lemma flat_map_fit (firmware : list Bootloader.row) :
  Forall (fun c => Py.len (payload_of c) <= payload_bound c)
    (flat_map spec_row_calls firmware).
Proof.
  induction firmware as [|r firmware IH]; cbn [flat_map].
  - constructor.
  - apply Forall_app. split; [apply spec_row_calls_fit|exact IH].
Qed.

(** C2: for every row the flashing loop makes the calls of the splitting
    rule, in image order: some [send_data] calls with consecutive 48-byte
    slices, then exactly one [program_row], last, with the rest; none when
    the row is shorter than 48 bytes, [full] when [rem > 0], [full - 1] when
    [rem = 0].  The chunks put together are the row.  Lengths 48, 96, 100 and
    1 give 0, 1, 2 and 0 [send_data] calls and a final chunk of 48, 48, 4 and
    1 bytes.  With a device whose answers decode, the loop runs to its end and
    the packets written are those of these calls. *)
Theorem flash_splits_rows
  (firmware : list Bootloader.row) (self : Bootloader.session)
  (Hdev : responsive (Bootloader._device self)) :
  let calls := flat_map spec_row_calls firmware in
  (forall s, Bootloader.flash firmware s = for_each calls issue s) /\
  (exists self',
     Bootloader.flash firmware self = (Ok tt, self') /\
     writes_of (log_of self') = writes_of (log_of self) ++ map wire calls) /\
  (forall array_id row_number data,
     let n := Py.len data in
     exists (chunks : list (list Z)) (last : list Z),
       spec_row_calls (array_id, row_number, data)
       = map SendData chunks ++ [ProgramRow array_id row_number last] /\
       chunks = map (chunk_at data) (seq 0 (List.length chunks)) /\
       Forall (fun c => Py.len c = 48) chunks /\
       List.concat chunks ++ last = data /\
       Py.len chunks
       = (if n <? 48 then 0
          else if 0 <? n mod 48 then n / 48 else n / 48 - 1) /\
       Py.len last
       = (if n <? 48 then n else if 0 <? n mod 48 then n mod 48 else 48)) /\
  (forall array_id row_number data,
     (Py.len data = 48 ->
      spec_row_calls (array_id, row_number, data)
      = [ProgramRow array_id row_number data]) /\
     (Py.len data = 96 ->
      spec_row_calls (array_id, row_number, data)
      = [SendData (firstn 48 data);
         ProgramRow array_id row_number (skipn 48 data)]) /\
     (Py.len data = 100 ->
      spec_row_calls (array_id, row_number, data)
      = [SendData (firstn 48 data);
         SendData (firstn 48 (skipn 48 data));
         ProgramRow array_id row_number (skipn 96 data)]) /\
     (Py.len data = 1 ->
      spec_row_calls (array_id, row_number, data)
      = [ProgramRow array_id row_number data])).
Proof.
  intros calls. split; [|split; [|split]].
  - intros s. apply flash_calls.
  - destruct (for_each_issue_responsive calls self) as (self' & Hrun & Hw & _).
    + apply (Forall_impl _ (P := fun c => Py.len (payload_of c) <= payload_bound c)).
      * intros c Hc. pose proof (payload_bound_le c). lia.
      * apply flat_map_fit.
    + exact Hdev.
    + exists self'. split; [|exact Hw].
      rewrite flash_calls. exact Hrun.
  - intros array_id row_number data. apply spec_row_calls_shape.
  - intros array_id row_number data.
    repeat split; intros Hlen; unfold spec_row_calls; rewrite Hlen.
    + cbn [Z.ltb Z.compare Pos.compare Pos.compare_cont].
      change (48 mod 48) with 0. change (48 / 48 - 1) with 0.
      cbn [Z.ltb Z.compare Z.to_nat seq map app Nat.mul skipn]. reflexivity.
    + reflexivity.
    + reflexivity.
    + reflexivity.
Qed.

Lemma constant_device_responsive (raw : list Z) (r : Bootloader.response) :
  Bootloader._parse_response raw = Ok r -> responsive (constant_device raw).
Proof. intros H history. exists r. exact H. Qed.

Lemma flash_splits_rows_witness :
  let self := Bootloader.__init__ (constant_device ack) in
  exists self',
    Bootloader.flash sample_firmware self = (Ok tt, self') /\
    writes_of (log_of self')
    = map wire
        [ SendData (repeat 0xaa 48); SendData (repeat 0xaa 48);
          ProgramRow 0 1 (repeat 0xaa 4);
          SendData (repeat 0x55 48); ProgramRow 0 2 (repeat 0x55 48) ].
Proof.
  intros self.
  destruct (flash_splits_rows sample_firmware self
              (fun history =>
                 ex_intro _ (Bootloader.mk_response "CYRET_SUCCESS" [] true)
                   eq_refl))
    as (_ & (self' & Hrun & Hw) & _).
  exists self'. split; [exact Hrun|].
  rewrite Hw. reflexivity.
Defined.

(** ** Payload sizes while flashing *)

Lemma rbind_not_payload_size {A B} (r : result A) (k : A -> result B) :
  not_payload_size r -> (forall a, not_payload_size (k a)) ->
  not_payload_size (rbind r k).
Proof. destruct r as [a|e]; cbn; auto. Qed.

Lemma getitem_not_payload_size (l : list Z) (i : Z) :
  not_payload_size (Py.getitem l i).
Proof.
  unfold Py.getitem. destruct (_ || _); cbn; [discriminate|exact I].
Qed.

Lemma dict_get_not_payload_size {V} (d : list (Z * V)) (k : Z) :
  not_payload_size (Py.dict_get d k).
Proof.
  induction d as [|[k' v] d IH]; cbn.
  - discriminate.
  - destruct (k' =? k); [exact I|exact IH].
Qed.

Lemma parse_response_not_payload_size (raw : list Z) :
  not_payload_size (Bootloader._parse_response raw).
Proof.
  unfold Bootloader._parse_response. cbv zeta.
  repeat (apply rbind_not_payload_size;
          [first [ apply getitem_not_payload_size
                 | apply dict_get_not_payload_size
                 | match goal with
                   | |- not_payload_size (assert ?b _) =>
                       destruct b; cbn; [exact I|discriminate]
                   end ]
          | intros ? ]).
  exact I.
Qed.

Lemma for_each_issue_fits (calls : list call) (s : Bootloader.session) :
  Forall (fun c => Py.len (payload_of c) <= 57) calls ->
  not_payload_size (fst (for_each calls issue s)).
Proof.
  intros Hfit. revert s.
  induction Hfit as [|c calls Hc Hfit IH]; intros s; cbn [for_each].
  - exact I.
  - unfold bind. rewrite issue_run by assumption.
    pose proof (parse_response_not_payload_size (next_reply s (wire c))) as Hp.
    destruct (Bootloader._parse_response _) as [r|e]; cbn [rbind].
    + apply IH.
    + exact Hp.
Qed.

(** C10: every packet the flashing loop has encoded carries at most 57
    payload bytes, whatever the length of the row: a [send_data] payload has
    at most 48 bytes and a [program_row] payload at most 3 + 48 = 51, so
    [_make_packet] returns the frame and its size assertion never fails
    during [flash]. *)
Theorem flash_payloads_fit (firmware : list Bootloader.row) :
  let calls := flat_map spec_row_calls firmware in
  Forall (fun c =>
            Py.len (payload_of c) <= payload_bound c /\
            payload_bound c <= 57 /\
            Bootloader._make_packet (command_of c) (payload_of c)
            = Ok (wire c)) calls /\
  forall self : Bootloader.session,
    Bootloader.flash firmware self = for_each calls issue self /\
    fst (Bootloader.flash firmware self) <> Raise (AssertionError payload_size).
Proof.
  intros calls.
  assert (Hfit : Forall (fun c => Py.len (payload_of c) <= 57) calls).
  { apply (Forall_impl _ (P := fun c => Py.len (payload_of c) <= payload_bound c)).
    - intros c Hc. pose proof (payload_bound_le c). lia.
    - apply flat_map_fit. }
  split.
  - pose proof (flat_map_fit firmware) as Hb. fold calls in Hb.
    rewrite Forall_forall in *. intros c Hin.
    pose proof (Hb c Hin) as Hc. pose proof (payload_bound_le c) as Hle.
    repeat split; try assumption.
    rewrite make_packet_frame.
    destruct (Z.leb_spec (Py.len (payload_of c)) 57); [reflexivity|lia].
  - intros self. split; [apply flash_calls|].
    rewrite flash_calls. fold calls.
    pose proof (for_each_issue_fits calls self Hfit) as H.
    destruct (fst (for_each calls issue self)) as [[]|e]; [discriminate|].
    cbn in H. congruence.
Qed.

(** ** After exit *)

Lemma exit_bootloader_run (self : Bootloader.session) :
  Bootloader.exit_bootloader self
  = (Ok tt,
     Bootloader.mk_session
       (hid.mk_device (log_of self ++ [hid.Wrote (frame 0x3b [])])
          (hid.reply (Bootloader._device self)))
       (Bootloader.jtag_id self) (Bootloader.device_revision self)
       (Bootloader.bootloader_revision self)).
Proof. reflexivity. Qed.

Lemma report_log (m : M Bootloader.session Bootloader.response)
      (s : Bootloader.session) :
  log_of (snd ((response <~ m ;;
                if Bootloader.is_success response then ret true else ret false) s))
  = log_of (snd (m s)).
Proof.
  unfold bind. destruct (m s) as [[r|e] s']; [|reflexivity].
  destruct (Bootloader.is_success r); reflexivity.
Qed.

Lemma send_command_log (command : Z) (payload : list Z)
      (s : Bootloader.session) :
  Py.len payload <= 57 ->
  log_of (snd (Bootloader.send_command command payload s))
  = log_of s ++ [hid.Wrote (frame command payload);
                 hid.Read 64 (next_reply s (frame command payload))].
Proof.
  intros H. apply Z.leb_le in H. rewrite send_command_run, H. reflexivity.
Qed.

Lemma enter_bootloader_log (s : Bootloader.session) :
  log_of (snd (Bootloader.enter_bootloader s))
  = log_of s ++ [hid.Wrote (frame 0x38 []);
                 hid.Read 64 (next_reply s (frame 0x38 []))].
Proof.
  unfold Bootloader.enter_bootloader. unfold bind at 1.
  rewrite send_command_run. change (Py.len [] <=? 57) with true. cbv iota.
  destruct (Bootloader._parse_response _) as [r|e]; [|reflexivity].
  destruct (Bootloader.is_success r); [|reflexivity].
  cbv [bind lift ret modify gets ior Bootloader.set_jtag_id
       Bootloader.ior_jtag_id Bootloader.set_device_revision
       Bootloader.set_bootloader_revision].
  repeat match goal with
         | |- context [Py.getitem ?l ?i] =>
             destruct (Py.getitem l i); [|reflexivity]
         end.
  reflexivity.
Qed.





(** ** The status lookup *)

(** C1, on the code: a frame with the well-formed layout and status byte
    0x01, which the table does not list, is not classified: the lookup raises
    [KeyError] and no response is returned. *)
Theorem unknown_status_raises :
  ~ known_status 0x01 /\
  Bootloader._checksum [0x01; 0x01; 0; 0] = 0xfffe /\
  Bootloader._parse_response [0x01; 0x01; 0; 0; 0xfe; 0xff; 0x17]
  = Raise (KeyError 0x01).
Proof.
  split; [|split; reflexivity].
  unfold known_status. cbn. intros H.
  repeat (destruct H as [H|H]; [discriminate H|]). exact H.
Qed.

(** C4, on the code: the frame encoded for the enter command (0x38, no
    payload) does not decode, because 0x38 is not a key of the status
    table. *)
Theorem enter_frame_does_not_decode :
  Bootloader._make_packet 0x38 []
  = Ok [0x01; 0x38; 0; 0; 0xc7; 0xff; 0x17] /\
  ~ known_status 0x38 /\
  Bootloader._parse_response [0x01; 0x38; 0; 0; 0xc7; 0xff; 0x17]
  = Raise (KeyError 0x38).
Proof.
  split; [reflexivity|]. split; [|reflexivity].
  unfold known_status. cbn. intros H.
  repeat (destruct H as [H|H]; [discriminate H|]). exact H.
Qed.

(** For the command bytes that are keys of the status table the round trip
    holds: the payload comes back and the checksum is accepted. *)
Lemma round_trip_known_command (command : Z) (payload : list Z) :
  Py.len payload <= 57 -> known_status command ->
  exists packet name,
    Bootloader._make_packet command payload = Ok packet /\
    Bootloader._parse_response packet
    = Ok (Bootloader.mk_response name payload true).
Proof.
  intros Hlen Hknown.
  assert (Hname : exists name,
             Py.dict_get Bootloader.STATUSES command = Ok name).
  { unfold known_status in Hknown. cbn in Hknown.
    repeat (destruct Hknown as [<-|Hknown]; [eexists; reflexivity|]).
    contradiction. }
  destruct Hname as [name Hname].
  exists (frame command payload), name. split.
  - rewrite make_packet_frame.
    destruct (Z.leb_spec (Py.len payload) 57); [reflexivity|lia].
  - apply parse_response_frame; assumption.
Qed.

(** ** Firmware records *)

Lemma hexdigit_range (c : ascii) (v : Z) :
  binascii.hexdigit c = Ok v -> 0 <= v <= 15.
Proof.
  unfold binascii.hexdigit.
  set (n := Z.of_nat (nat_of_ascii c)).
  destruct ((48 <=? n) && (n <=? 57)) eqn:E1.
  { intros [= <-]. apply andb_true_iff in E1. lia. }
  destruct ((97 <=? n) && (n <=? 102)) eqn:E2.
  { intros [= <-]. apply andb_true_iff in E2. lia. }
  destruct ((65 <=? n) && (n <=? 70)) eqn:E3.
  { intros [= <-]. apply andb_true_iff in E3. lia. }
  discriminate.
Qed.

Lemma a2b_hex_bytes (s : list ascii) (l : list Z) :
  binascii.a2b_hex s = Ok l -> Forall is_byte l.
Proof.
  remember (List.length s) as n eqn:Hn.
  revert s l Hn. induction n as [n IH] using lt_wf_ind. intros s l Hn.
  destruct s as [|a [|b s']]; cbn [binascii.a2b_hex].
  - intros [= <-]. constructor.
  - discriminate.
  - destruct (binascii.hexdigit a) as [hi|] eqn:Ea; [|discriminate].
    destruct (binascii.hexdigit b) as [lo|] eqn:Eb; [|discriminate].
    destruct (binascii.a2b_hex s') as [rest|] eqn:Er; [|discriminate].
    cbn [rbind]. intros [= <-].
    apply hexdigit_range in Ea. apply hexdigit_range in Eb.
    constructor.
    + unfold is_byte. lia.
    + apply (IH (List.length s')) with (s := s'); [|reflexivity|exact Er].
      subst n. cbn [List.length]. lia.
Qed.

Lemma nth_is_byte (l : list Z) (i : nat) :
  Forall is_byte l -> is_byte (nth i l 0).
Proof.
  intros H. destruct (Nat.lt_ge_cases i (List.length l)) as [Hlt|Hge].
  - rewrite Forall_forall in H. apply H. apply nth_In. assumption.
  - rewrite nth_overflow by assumption. unfold is_byte. lia.
Qed.

Lemma big_endian_16 (hi lo : Z) :
  is_byte lo -> Z.lor (Z.shiftl hi 8) lo = 256 * hi + lo.
Proof.
  unfold is_byte. intros H.
  rewrite Z.lor_comm, lor_shiftl by lia. lia.
Qed.

Lemma slice_all_but_last {A} (init : list A) (x : A) :
  Py.slice (init ++ [x]) None (Some (-1)) = init.
Proof.
  unfold Py.slice, Py.clamp. cbn [Z.ltb Z.compare].
  rewrite len_app. change (Py.len [x]) with 1.
  pose proof (len_nonneg init).
  rewrite Z.max_l by lia. cbn [Z.to_nat skipn].
  replace (-1 + (Py.len init + 1) - 0) with (Py.len init) by lia.
  apply firstn_len_app.
Qed.

(** On a record laid out as the format says, the loop body either yields
    the row or fails the checksum assertion. *)
Lemma parse_line_record (line : string) (l : list Z) :
  decoded line = Ok l -> well_laid_out l ->
  Cyacd.parse_line line
  = if checksum_holdsb l then Ok (row_of l)
    else Raise (AssertionError line_checksum).
Proof.
  intros Hdec Hwf. unfold Cyacd.parse_line.
  unfold decoded in Hdec. rewrite Hdec. cbn [rbind].
  pose proof (a2b_hex_bytes _ _ Hdec) as Hbytes.
  pose proof (nth_is_byte l 2 Hbytes) as Hb2.
  pose proof (nth_is_byte l 3 Hbytes) as Hb3.
  pose proof (nth_is_byte l 4 Hbytes) as Hb4.
  unfold well_laid_out in Hwf.
  assert (Hdl : 0 <= declared_length l)
    by (unfold declared_length, is_byte in *; lia).
  rewrite !getitem_in_range by lia. cbn [rbind].
  change (Z.to_nat 0) with 0%nat. change (Z.to_nat 1) with 1%nat.
  change (Z.to_nat 2) with 2%nat. change (Z.to_nat 3) with 3%nat.
  change (Z.to_nat 4) with 4%nat.
  rewrite !big_endian_16 by assumption.
  fold (declared_length l).
  assert (Hne : l <> []).
  { intros ->. cbn in Hwf. lia. }
  pose proof (app_removelast_last 0 Hne) as Hsplit.
  remember (removelast l) as init eqn:Einit.
  remember (last l 0) as c eqn:Ec.
  assert (Hinit : Py.len init = 5 + declared_length l).
  { assert (Hl : Py.len l = Py.len init + 1)
      by (rewrite Hsplit at 1; rewrite len_app; reflexivity).
    lia. }
  assert (Hlast : Py.getitem l (5 + declared_length l) = Ok c).
  { rewrite Hsplit at 1. rewrite <- Hinit.
    replace (Py.len init) with (Py.len init + 0) by lia.
    rewrite getitem_app_right by lia. reflexivity. }
  rewrite Hlast. cbn [rbind].
  assert (Hprefix : Py.slice l None (Some (-1)) = init).
  { rewrite Hsplit at 1. apply slice_all_but_last. }
  rewrite Hprefix, cyacd_checksum_spec.
  rewrite slice_inside by lia.
  replace (5 + declared_length l - 5) with (declared_length l) by lia.
  change (Z.to_nat 5) with 5%nat.
  unfold checksum_holdsb. rewrite <- Einit, <- Ec.
  destruct (c =? - total init mod 256); reflexivity.
Qed.

Lemma parse_lines_records (lines : list string) (records : list (list Z)) :
  Forall2 (fun line l => decoded line = Ok l /\ well_laid_out l) lines records ->
  forall firmware,
    Cyacd.parse_lines lines firmware
    = if forallb checksum_holdsb records
      then Ok (firmware ++ map row_of records)
      else Raise (AssertionError line_checksum).
Proof.
  induction 1 as [|line l lines records [Hdec Hwf] _ IH]; intros firmware.
  - cbn. rewrite app_nil_r. reflexivity.
  - cbn [Cyacd.parse_lines forallb map].
    rewrite (parse_line_record line l Hdec Hwf).
    destruct (checksum_holdsb l); cbn [rbind andb]; [|reflexivity].
    rewrite IH. destruct (forallb checksum_holdsb records); [|reflexivity].
    rewrite <- app_assoc. reflexivity.
Qed.

Lemma checksum_holdsb_iff (l : list Z) :
  checksum_holdsb l = true <-> checksum_holds l.
Proof. unfold checksum_holdsb, checksum_holds. apply Z.eqb_eq. Qed.

Lemma forallb_checksums (records : list (list Z)) :
  (Forall checksum_holds records ->
   forallb checksum_holdsb records = true) /\
  (Exists (fun l => ~ checksum_holds l) records ->
   forallb checksum_holdsb records = false).
Proof.
  split.
  - intros H. apply forallb_forall. rewrite Forall_forall in H.
    intros l Hl. apply checksum_holdsb_iff. auto.
  - intros H. apply Exists_exists in H. destruct H as (l & Hin & Hbad).
    destruct (forallb checksum_holdsb records) eqn:E; [|reflexivity].
    rewrite forallb_forall in E. apply E in Hin.
    apply checksum_holdsb_iff in Hin. contradiction.
Qed.

(** What [parse] does on a file whose header decodes to at least six bytes
    and whose records are laid out as the format says. *)
Lemma parse_run (img : Cyacd.image) (header : string) (lines : list string)
      (hb : list Z) (records : list (list Z)) :
  Cyacd.file img = header :: lines ->
  decoded_header header = Ok hb -> 6 <= Py.len hb ->
  Forall2 (fun line l => decoded line = Ok l /\ well_laid_out l) lines records ->
  let id := Z.lor (Z.lor (Z.lor (nth 3 hb 0) (Z.shiftl (nth 2 hb 0) 8))
                     (Z.shiftl (nth 1 hb 0) 16))
              (Z.shiftl (nth 0 hb 0) 24) in
  Cyacd.parse img
  = if forallb checksum_holdsb records
    then (Ok tt,
          Cyacd.mk_image (Cyacd.file img) (Some id) (Some (nth 4 hb 0))
            (Some (nth 5 hb 0)) (Some (map row_of records)))
    else (Raise (AssertionError line_checksum),
          Cyacd.mk_image (Cyacd.file img) (Some id) (Some (nth 4 hb 0))
            (Some (nth 5 hb 0)) (Cyacd.firmware img)).
Proof.
  intros Hfile Hheader Hlen Hrecords id.
  destruct img as [f sid srev ctype fw]. cbn [Cyacd.file] in *. subst f.
  unfold Cyacd.parse. unfold bind at 1. unfold gets. cbn [Cyacd.file].
  unfold bind at 1. unfold lift at 1. cbn [Py.pop0 fst snd].
  unfold decoded_header in Hheader.
  unfold bind at 1. unfold lift at 1. rewrite Hheader.
  rewrite !getitem_in_range by lia.
  rewrite (parse_lines_records lines records Hrecords).
  cbn [app].
  destruct (forallb checksum_holdsb records); reflexivity.
Qed.

(** A record with one byte after its checksum is accepted although its
    trailing byte is not the negated sum of the bytes before it (nor is the
    byte at the checksum's place). *)
Lemma surplus_byte_line_is_accepted :
  let l := [2; 0; 0; 0; 0; 127; 9] in
  let img := Cyacd.__init__ ["000000000000"%string; surplus_line] in
  decoded surplus_line = Ok l /\
  ~ checksum_holds l /\
  nth 5 l 0 <> (- total (firstn 5 l)) mod 256 /\
  fst (Cyacd.parse img) = Ok tt /\
  Cyacd.firmware (snd (Cyacd.parse img)) = Some [(2, 0, [])].
Proof.
  intros l img.
  split; [reflexivity|].
  split; [intros H; vm_compute in H; discriminate H|].
  split; [intros H; vm_compute in H; discriminate H|].
  split; reflexivity.
Qed.

(** On a file whose header decodes to at least six bytes and whose record
    lines decode to records of exactly five prefix bytes, the declared number
    of data bytes and one checksum byte, [parse] checks each record's
    trailing byte against the 8-bit two's-complement negation of the sum of
    the bytes before it.  When every record passes, [parse] succeeds and
    [firmware] holds the rows in file order; when some record fails, [parse]
    raises the checksum assertion and [firmware] is left as it was. *)
Theorem parse_checks_every_record
  (img : Cyacd.image) (header : string) (lines : list string)
  (hb : list Z) (records : list (list Z))
  (Hfile : Cyacd.file img = header :: lines)
  (Hheader : decoded_header header = Ok hb)
  (Hlength : 6 <= Py.len hb)
  (Hrecords : Forall2 (fun line l => decoded line = Ok l /\ well_laid_out l)
                lines records) :
  (Forall checksum_holds records ->
   exists img',
     Cyacd.parse img = (Ok tt, img') /\
     Cyacd.firmware img' = Some (map row_of records)) /\
  (Exists (fun l => ~ checksum_holds l) records ->
   exists img',
     Cyacd.parse img = (Raise (AssertionError line_checksum), img') /\
     Cyacd.firmware img' = Cyacd.firmware img).
Proof.
  pose proof (parse_run img header lines hb records
                Hfile Hheader Hlength Hrecords) as Hrun.
  cbv zeta in Hrun.
  destruct (forallb_checksums records) as [Hall Hsome].
  split; intros H.
  - rewrite (Hall H) in Hrun. eexists. split; [exact Hrun|reflexivity].
  - rewrite (Hsome H) in Hrun. eexists. split; [exact Hrun|reflexivity].
Qed.

Lemma parse_checks_every_record_witness :
  exists img',
    Cyacd.parse (Cyacd.__init__ sample_file) = (Ok tt, img') /\
    Cyacd.firmware img' = Some [(1, 5, [0xaa; 0xbb]); (1, 6, [])].
Proof.
  destruct (parse_checks_every_record
              (Cyacd.__init__ sample_file)
              "0001020304AA" [":0100050002AABB93"%string; ":0100060000F9"%string]
              [0; 1; 2; 3; 4; 0xaa]
              [[1; 0; 5; 0; 2; 0xaa; 0xbb; 0x93]; [1; 0; 6; 0; 0; 0xf9]]
              eq_refl eq_refl ltac:(vm_compute; discriminate)
              ltac:(repeat constructor))
    as [Hgood _].
  apply Hgood.
  repeat constructor.
Defined.

(** A record whose checksum byte is wrong makes [parse] fail, and no row
    list is stored. *)
Example parse_bad_checksum :
  let img := Cyacd.__init__ ["0001020304AA"%string; ":0100050002AABB94"%string] in
  fst (Cyacd.parse img) = Raise (AssertionError line_checksum) /\
  Cyacd.firmware (snd (Cyacd.parse img)) = None.
Proof. split; reflexivity. Qed.

(** * Further properties of the code *)

(** ** The packet codec *)

Lemma len_frame (command : Z) (payload : list Z) :
  Py.len (frame command payload) = Py.len payload + 7.
Proof.
  unfold frame, frame_body. rewrite !len_app.
  cbn [app]. rewrite !len_cons. change (Py.len (@nil Z)) with 0. lia.
Qed.

Lemma spec_checksum_range (bytes : list Z) : 0 <= spec_checksum bytes < 65536.
Proof. unfold spec_checksum. apply Z.mod_pos_bound. lia. Qed.

Lemma frame_bytes (command : Z) (payload : list Z) :
  is_byte command -> Forall is_byte payload -> Py.len payload <= 57 ->
  Forall is_byte (frame command payload).
Proof.
  intros Hc Hp Hlen. pose proof (len_nonneg payload) as Hn.
  unfold frame, frame_body.
  set (cs := spec_checksum _).
  pose proof (spec_checksum_range
                ([1; command; Py.len payload mod 256; Py.len payload / 256]
                   ++ payload)) as Hcs.
  fold cs in Hcs.
  apply Forall_app. split; [apply Forall_app; split|].
  - repeat constructor; unfold is_byte in *; try lia.
    + apply Z.mod_pos_bound; lia.
    + pose proof (Z.mod_pos_bound (Py.len payload) 256 ltac:(lia)). lia.
    + apply Z.div_pos; lia.
    + rewrite Z.div_small by lia. lia.
  - exact Hp.
  - assert (0 <= cs / 256 < 256)
      by (split; [apply Z.div_pos; lia|apply Z.div_lt_upper_bound; lia]).
    pose proof (Z.mod_pos_bound cs 256 ltac:(lia)).
    repeat constructor; unfold is_byte; lia.
Qed.

(** X1: an encoded packet is a HID report: when the command and the payload are
    bytes and the payload has at most 57 of them, [_make_packet] returns
    [len(data) + 7] bytes, at most 64, opened by 0x01 and closed by 0x17. *)
Theorem make_packet_is_report
  (command : Z) (data : list Z)
  (Hcommand : is_byte command) (Hdata : Forall is_byte data)
  (Hlength : Py.len data <= 57) :
  exists packet,
    Bootloader._make_packet command data = Ok packet /\
    Py.len packet = Py.len data + 7 /\
    Py.len packet <= 64 /\
    Forall is_byte packet /\
    nth 0 packet 0 = 0x01 /\
    nth 1 packet 0 = command /\
    last packet 0 = 0x17.
Proof.
  exists (frame command data).
  split.
  { rewrite make_packet_frame.
    destruct (Z.leb_spec (Py.len data) 57); [reflexivity|lia]. }
  split; [apply len_frame|].
  split; [rewrite len_frame; lia|].
  split; [apply frame_bytes; assumption|].
  split; [reflexivity|]. split; [reflexivity|].
  unfold frame. cbv zeta.
  set (cs := spec_checksum _).
  change [cs mod 256; cs / 256; 23] with ([cs mod 256; cs / 256] ++ [23]).
  rewrite app_assoc. apply last_last.
Qed.

Lemma make_packet_is_report_witness :
  exists packet,
    Bootloader._make_packet 0x39 [0; 5; 0; 0xaa; 0xbb] = Ok packet /\
    Py.len packet = 12.
Proof.
  destruct (make_packet_is_report 0x39 [0; 5; 0; 0xaa; 0xbb]
              ltac:(unfold is_byte; lia)
              ltac:(repeat constructor; unfold is_byte; lia)
              ltac:(vm_compute; discriminate))
    as (packet & Hpacket & Hlen & _).
  exists packet. split; [exact Hpacket|exact Hlen].
Defined.

Lemma length_split (n : Z) :
  0 <= n < 65536 ->
  Z.lor (Z.shiftl (n / 256) 8) (n mod 256) = n.
Proof.
  intros Hn. pose proof (Z.mod_pos_bound n 256 ltac:(lia)) as Hlo.
  rewrite big_endian_16 by (unfold is_byte; lia).
  pose proof (Z.div_mod n 256 ltac:(lia)). lia.
Qed.

(** Decoding a buffer laid out as a frame. *)
Lemma parse_received (code : Z) (payload : list Z) (c0 c1 closing : Z)
      (padding : list Z) (name : string) :
  Py.len payload < 65536 ->
  Py.dict_get Bootloader.STATUSES code = Ok name ->
  Bootloader._parse_response (received code payload c0 c1 closing padding)
  = if closing =? 0x17
    then Ok (Bootloader.mk_response name payload
               (Bootloader._checksum (frame_body code payload)
                =? Z.lor c0 (Z.shiftl c1 8)))
    else Raise (AssertionError end_marker).
Proof.
  intros Hlen Hname. pose proof (len_nonneg payload) as Hn.
  unfold received, frame_body.
  set (n := Py.len payload) in *.
  set (head := [1; code; n mod 256; n / 256]).
  set (tail := [c0; c1; closing] ++ padding).
  pose proof (len_nonneg padding) as Hpad.
  assert (Hlen_hp : Py.len (head ++ payload) = 4 + n)
    by (rewrite len_app; reflexivity).
  assert (Hlen_tail : Py.len tail = 3 + Py.len padding)
    by (unfold tail; rewrite len_app; reflexivity).
  assert (Hlen_all : Py.len ((head ++ payload) ++ tail) = 4 + n + Py.len tail)
    by (rewrite len_app, Hlen_hp; reflexivity).
  assert (Hhead : forall i, 0 <= i < 4 ->
            Py.getitem ((head ++ payload) ++ tail) i = Py.getitem head i).
  { intros i Hi. rewrite <- app_assoc.
    rewrite !getitem_in_range
      by (try rewrite len_app; change (Py.len head) with 4;
          pose proof (len_nonneg (payload ++ tail)); lia).
    f_equal. apply app_nth1. simpl. lia. }
  assert (Htail : forall j, 0 <= j ->
            Py.getitem ((head ++ payload) ++ tail) (4 + n + j)
            = Py.getitem tail j).
  { intros j Hj. apply getitem_at; lia. }
  assert (Htail0 : Py.getitem ((head ++ payload) ++ tail) (4 + n)
                   = Py.getitem tail 0)
    by (apply getitem_at; lia).
  assert (T0 : Py.getitem tail 0 = Ok c0)
    by (rewrite getitem_in_range by lia; reflexivity).
  assert (T1 : Py.getitem tail 1 = Ok c1)
    by (rewrite getitem_in_range by lia; reflexivity).
  assert (T2 : Py.getitem tail 2 = Ok closing)
    by (rewrite getitem_in_range by lia; reflexivity).
  unfold Bootloader._parse_response.
  rewrite !Hhead by lia.
  change (Py.getitem head 0) with (@Ok Z 1).
  change (Py.getitem head 1) with (Ok code).
  change (Py.getitem head 3) with (Ok (n / 256)).
  change (Py.getitem head 2) with (Ok (n mod 256)).
  cbn [rbind]. change (1 =? 1) with true. cbn [assert rbind].
  rewrite Hname. cbn [rbind].
  rewrite length_split by lia.
  rewrite Htail0, !Htail by lia. rewrite T0, T1, T2. cbn [rbind].
  assert (Hpayload :
    (if n >? 0
     then Py.slice ((head ++ payload) ++ tail) (Some 4) (Some (4 + n))
     else []) = payload).
  { destruct (n >? 0) eqn:E.
    - rewrite slice_inside by lia.
      rewrite <- app_assoc.
      change (skipn (Z.to_nat 4) (head ++ payload ++ tail))
        with (payload ++ tail).
      replace (4 + n - 4) with (Py.len payload) by (subst n; lia).
      apply firstn_len_app.
    - assert (n = 0) by lia.
      destruct payload; [reflexivity|].
      subst n. rewrite len_cons in *. pose proof (len_nonneg payload). lia. }
  rewrite Hpayload.
  rewrite slice_prefix by lia.
  rewrite <- Hlen_hp, firstn_len_app.
  destruct (closing =? 23); reflexivity.
Qed.

(** X2: a response is decoded from the front of the buffer: for a status byte of
    the table and a payload of fewer than 65536 bytes, whatever follows the
    closing byte is ignored; the payload comes back, [checksum_ok] tells
    whether the two checksum bytes, low byte first, are the checksum of the
    bytes before them, and a closing byte other than 0x17 fails the
    end-marker assertion even when the checksum is right. *)
Theorem decode_reads_frame_prefix
  (code : Z) (payload : list Z) (c0 c1 closing : Z) (padding : list Z)
  (name : string)
  (Hlength : Py.len payload < 65536)
  (Hname : Py.dict_get Bootloader.STATUSES code = Ok name) :
  Bootloader._parse_response
    ([0x01; code; Py.len payload mod 256; Py.len payload / 256]
       ++ payload ++ [c0; c1; closing] ++ padding)
  = if closing =? 0x17
    then Ok (Bootloader.mk_response name payload
               (Bootloader._checksum
                  ([0x01; code; Py.len payload mod 256; Py.len payload / 256]
                     ++ payload)
                =? Z.lor c0 (Z.shiftl c1 8)))
    else Raise (AssertionError end_marker).
Proof.
  pose proof (parse_received code payload c0 c1 closing padding name
                Hlength Hname) as H.
  unfold received, frame_body in H. rewrite <- app_assoc in H. exact H.
Qed.

Lemma decode_reads_frame_prefix_witness :
  Bootloader._parse_response
    ([0x01; 0x00; 2; 0] ++ [7; 9] ++ [0xed; 0xff; 0x17] ++ repeat 0 53)
  = Ok (Bootloader.mk_response "CYRET_SUCCESS" [7; 9] true).
Proof.
  exact (decode_reads_frame_prefix 0x00 [7; 9] 0xed 0xff 0x17 (repeat 0 53)
           "CYRET_SUCCESS" ltac:(vm_compute; reflexivity) eq_refl).
Defined.

Lemma getitem_firstn (l : list Z) (k : nat) (i : Z) :
  0 <= i ->
  Py.getitem (firstn k l) i
  = if Z.of_nat k <=? i then Raise IndexError else Py.getitem l i.
Proof.
  intros Hi.
  assert (Hlen : Py.len (firstn k l) = Z.min (Z.of_nat k) (Py.len l))
    by (unfold Py.len; rewrite length_firstn; lia).
  destruct (Z.leb_spec (Z.of_nat k) i) as [Hk|Hk].
  - apply getitem_out_of_range. lia.
  - destruct (Z_lt_le_dec i (Py.len l)) as [Hin|Hout].
    + rewrite !getitem_in_range by lia. f_equal.
      rewrite nth_firstn.
      destruct (Nat.ltb_spec (Z.to_nat i) k); [reflexivity|lia].
    + rewrite !getitem_out_of_range by lia. reflexivity.
Qed.

Lemma received_items (code : Z) (payload : list Z) (c0 c1 closing : Z)
      (padding : list Z) :
  let raw := received code payload c0 c1 closing padding in
  let n := Py.len payload in
  Py.getitem raw 0 = Ok 0x01 /\
  Py.getitem raw 1 = Ok code /\
  Py.getitem raw 2 = Ok (n mod 256) /\
  Py.getitem raw 3 = Ok (n / 256) /\
  Py.getitem raw (4 + n) = Ok c0 /\
  Py.getitem raw (4 + n + 1) = Ok c1 /\
  Py.getitem raw (4 + n + 2) = Ok closing.
Proof.
  intros raw n. pose proof (len_nonneg payload) as Hn. fold n in Hn.
  pose proof (len_nonneg padding) as Hpad.
  unfold raw, received, frame_body. fold n.
  set (head := [1; code; n mod 256; n / 256]).
  set (tail := [c0; c1; closing] ++ padding).
  assert (Hlen_hp : Py.len (head ++ payload) = 4 + n)
    by (rewrite len_app; reflexivity).
  assert (Hlen_tail : Py.len tail = 3 + Py.len padding)
    by (unfold tail; rewrite len_app; reflexivity).
  assert (Hhead : forall i, 0 <= i < 4 ->
            Py.getitem ((head ++ payload) ++ tail) i
            = Ok (nth (Z.to_nat i) head 0)).
  { intros i Hi. rewrite <- app_assoc.
    rewrite getitem_in_range
      by (rewrite len_app; change (Py.len head) with 4;
          pose proof (len_nonneg (payload ++ tail)); lia).
    f_equal. apply app_nth1. simpl. lia. }
  assert (Htail : forall j, 0 <= j < 3 ->
            Py.getitem ((head ++ payload) ++ tail) (4 + n + j)
            = Ok (nth (Z.to_nat j) tail 0)).
  { intros j Hj. rewrite (getitem_at _ _ _ j) by lia.
    apply getitem_in_range. lia. }
  split; [apply (Hhead 0); lia|].
  split; [apply (Hhead 1); lia|].
  split; [apply (Hhead 2); lia|].
  split; [apply (Hhead 3); lia|].
  split; [replace (4 + n) with (4 + n + 0) by lia; apply (Htail 0); lia|].
  split; [apply (Htail 1); lia|apply (Htail 2); lia].
Qed.

(** X3: buffers that are no frame are rejected, each in its own way: an empty
    buffer raises [IndexError]; a first byte other than 0x01 fails the
    start-marker assertion whatever follows; a frame with a status of the
    table that is cut anywhere before the end of its closing byte raises
    [IndexError]. *)
Theorem decode_rejects_broken_frames :
  Bootloader._parse_response [] = Raise IndexError /\
  (forall (first : Z) (rest : list Z),
     first <> 0x01 ->
     Bootloader._parse_response (first :: rest)
     = Raise (AssertionError start_marker)) /\
  (forall (code : Z) (payload : list Z) (c0 c1 closing : Z) (name : string)
          (k : nat),
     Py.len payload < 65536 ->
     Py.dict_get Bootloader.STATUSES code = Ok name ->
     Z.of_nat k < Py.len payload + 7 ->
     Bootloader._parse_response
       (firstn k (received code payload c0 c1 closing []))
     = Raise IndexError).
Proof.
  split; [reflexivity|]. split.
  - intros first rest Hfirst. unfold Bootloader._parse_response.
    rewrite getitem_in_range
      by (rewrite len_cons; pose proof (len_nonneg rest); lia).
    cbn [Z.to_nat nth rbind].
    destruct (Z.eqb_spec first 1); [contradiction|reflexivity].
  - intros code payload c0 c1 closing name k Hlen Hname Hk.
    pose proof (len_nonneg payload) as Hn.
    destruct (received_items code payload c0 c1 closing [])
      as (G0 & G1 & G2 & G3 & G4 & G5 & G6).
    unfold Bootloader._parse_response.
    rewrite (getitem_firstn _ k 0) by lia.
    destruct (Z.leb_spec (Z.of_nat k) 0); [reflexivity|].
    rewrite G0. cbn [rbind]. change (1 =? 1) with true. cbn [assert rbind].
    rewrite (getitem_firstn _ k 1) by lia.
    destruct (Z.leb_spec (Z.of_nat k) 1); [reflexivity|].
    rewrite G1. cbn [rbind]. rewrite Hname. cbn [rbind].
    rewrite (getitem_firstn _ k 3) by lia.
    destruct (Z.leb_spec (Z.of_nat k) 3); [reflexivity|].
    rewrite G3. cbn [rbind].
    rewrite (getitem_firstn _ k 2) by lia.
    destruct (Z.leb_spec (Z.of_nat k) 2); [lia|].
    rewrite G2. cbn [rbind].
    rewrite length_split by lia.
    rewrite (getitem_firstn _ k (4 + Py.len payload)) by lia.
    destruct (Z.leb_spec (Z.of_nat k) (4 + Py.len payload)); [reflexivity|].
    rewrite G4. cbn [rbind].
    rewrite (getitem_firstn _ k (4 + Py.len payload + 1)) by lia.
    destruct (Z.leb_spec (Z.of_nat k) (4 + Py.len payload + 1));
      [reflexivity|].
    rewrite G5. cbn [rbind].
    rewrite (getitem_firstn _ k (4 + Py.len payload + 2)) by lia.
    destruct (Z.leb_spec (Z.of_nat k) (4 + Py.len payload + 2));
      [reflexivity|lia].
Qed.

Lemma decode_rejects_broken_frames_witness :
  Bootloader._parse_response (firstn 6 (received 0x00 [] 0xff 0xff 0x17 []))
  = Raise IndexError.
Proof.
  exact (proj2 (proj2 decode_rejects_broken_frames)
           0x00 [] 0xff 0xff 0x17 "CYRET_SUCCESS"%string 6%nat
           ltac:(vm_compute; reflexivity) eq_refl
           ltac:(vm_compute; reflexivity)).
Defined.

Lemma total_app (l1 l2 : list Z) : total (l1 ++ l2) = total l1 + total l2.
Proof.
  induction l1 as [|x l1 IH]; cbn [app total fold_right].
  - reflexivity.
  - fold (total (l1 ++ l2)). fold (total l1). rewrite IH. lia.
Qed.

Lemma mod_differs (a b m : Z) :
  0 < m -> a <> b -> - m < a - b < m -> a mod m <> b mod m.
Proof.
  intros Hm Hab Hsmall Heq.
  pose proof (Z.div_mod a m ltac:(lia)) as Ha.
  pose proof (Z.div_mod b m ltac:(lia)) as Hb.
  rewrite Heq in Ha.
  assert (Hq : a - b = m * (a / m - b / m)) by lia.
  assert (a / m - b / m = 0 \/ a / m - b / m <= -1 \/ 1 <= a / m - b / m)
    as [H0|[Hneg|Hpos]] by lia.
  - rewrite H0 in Hq. lia.
  - nia.
  - nia.
Qed.

(** X4: the packet checksum catches any single altered payload byte: when a
    response arrives with the checksum of the payload that was sent but one
    payload byte has changed, decoding still succeeds, returns the altered
    payload, and reports [checksum_ok = False]. *)
Theorem altered_payload_byte_is_reported
  (code : Z) (before after : list Z) (sent got : Z) (padding : list Z)
  (name : string)
  (Hsent : is_byte sent) (Hgot : is_byte got) (Hdiffer : sent <> got)
  (Hlength : Py.len (before ++ [sent] ++ after) < 65536)
  (Hname : Py.dict_get Bootloader.STATUSES code = Ok name) :
  let good := before ++ [sent] ++ after in
  let bad := before ++ [got] ++ after in
  let cs :=
    Bootloader._checksum
      ([0x01; code; Py.len good mod 256; Py.len good / 256] ++ good) in
  Bootloader._parse_response
    ([0x01; code; Py.len good mod 256; Py.len good / 256]
       ++ bad ++ [Z.land cs 0xff; Z.shiftr cs 8; 0x17] ++ padding)
  = Ok (Bootloader.mk_response name bad false).
Proof.
  intros good bad cs.
  assert (Hsame : Py.len bad = Py.len good)
    by (unfold bad, good; rewrite !len_app; reflexivity).
  pose proof (parse_received code bad (Z.land cs 0xff) (Z.shiftr cs 8) 0x17
                padding name ltac:(rewrite Hsame; exact Hlength) Hname) as H.
  unfold received, frame_body in H. rewrite <- app_assoc in H.
  rewrite Hsame in H. rewrite H. change (23 =? 23) with true. cbv iota.
  f_equal. f_equal.
  rewrite land_byte, shiftr_byte.
  assert (Hcs : 0 <= cs < 65536)
    by (unfold cs; rewrite bootloader_checksum_spec; apply spec_checksum_range).
  rewrite lor_shiftl by (try apply Z.mod_pos_bound; lia).
  replace (cs mod 256 + cs / 256 * 2 ^ 8) with cs
    by (pose proof (Z.div_mod cs 256 ltac:(lia)); lia).
  apply Z.eqb_neq. unfold cs.
  rewrite !bootloader_checksum_spec. unfold spec_checksum.
  apply mod_differs; [lia| |].
  - unfold bad, good. rewrite !total_app. cbn [total fold_right].
    unfold is_byte in *. lia.
  - unfold bad, good. rewrite !total_app. cbn [total fold_right].
    unfold is_byte in *. lia.
Qed.

Lemma altered_payload_byte_is_reported_witness :
  Bootloader._parse_response
    ([0x01; 0x00; 3; 0] ++ ([1] ++ [9] ++ [3])
       ++ [0xf6; 0xff; 0x17] ++ [])
  = Ok (Bootloader.mk_response "CYRET_SUCCESS" [1; 9; 3] false).
Proof.
  exact (altered_payload_byte_is_reported 0x00 [1] [3] 2 9 [] "CYRET_SUCCESS"
           ltac:(unfold is_byte; lia) ltac:(unfold is_byte; lia)
           ltac:(discriminate) ltac:(vm_compute; reflexivity) eq_refl).
Defined.

(** ** Commands and the transport *)

(** X6: [send_command] talks to the device exactly once or not at all: a payload
    of more than 57 items fails the size assertion before anything is
    written; otherwise the packet is written, one read of 64 follows, and
    the call returns or raises what decoding the answer gives.  The learned
    identity is never touched. *)
Theorem send_command_exchanges_once
  (command : Z) (payload : list Z) (self : Bootloader.session) :
  let run := Bootloader.send_command command payload self in
  same_identity self (snd run) /\
  if Py.len payload <=? 57 then
    exists packet raw,
      Bootloader._make_packet command payload = Ok packet /\
      raw = hid.reply (Bootloader._device self)
              (log_of self ++ [hid.Wrote packet]) /\
      fst run = Bootloader._parse_response raw /\
      log_of (snd run) = log_of self ++ [hid.Wrote packet; hid.Read 64 raw]
  else
    run = (Raise (AssertionError payload_size), self).
Proof.
  intros run. unfold run. rewrite send_command_run, make_packet_frame.
  destruct (Py.len payload <=? 57).
  - split; [repeat split|].
    exists (frame command payload), (next_reply self (frame command payload)).
    repeat split.
  - split; [repeat split|reflexivity].
Qed.

Lemma same_identity_refl (s : Bootloader.session) : same_identity s s.
Proof. repeat split. Qed.

Lemma same_identity_trans (s1 s2 s3 : Bootloader.session) :
  same_identity s1 s2 -> same_identity s2 s3 -> same_identity s1 s3.
Proof.
  unfold same_identity. intros (A1 & A2 & A3 & A4) (B1 & B2 & B3 & B4).
  repeat split; congruence.
Qed.

Lemma send_command_same_identity (command : Z) (payload : list Z)
      (s : Bootloader.session) :
  same_identity s (snd (Bootloader.send_command command payload s)).
Proof.
  rewrite send_command_run.
  destruct (Py.len payload <=? 57); repeat split.
Qed.

Lemma report_same_identity (m : M Bootloader.session Bootloader.response)
      (s : Bootloader.session) :
  same_identity s (snd (m s)) ->
  same_identity s
    (snd ((response <~ m ;;
           if Bootloader.is_success response then ret true else ret false) s)).
Proof.
  unfold bind. destruct (m s) as [[r|e] s']; [|auto].
  destruct (Bootloader.is_success r); auto.
Qed.

Lemma snd_bind_drop {S A} (m : M S A) (s : S) :
  snd (bind m (fun _ => ret tt) s) = snd (m s).
Proof. unfold bind, ret. destruct (m s) as [[a|e] s']; reflexivity. Qed.

Lemma issue_same_identity (c : call) (s : Bootloader.session) :
  same_identity s (snd (issue c s)).
Proof.
  destruct c as [chunk|array_id row_number chunk]; cbn [issue];
    rewrite snd_bind_drop.
  - apply report_same_identity, send_command_same_identity.
  - apply report_same_identity, send_command_same_identity.
Qed.

Lemma for_each_same_identity {A} (l : list A)
      (body : A -> M Bootloader.session unit) :
  (forall x s, same_identity s (snd (body x s))) ->
  forall s, same_identity s (snd (for_each l body s)).
Proof.
  intros Hbody. induction l as [|x l IH]; intros s; cbn [for_each].
  - apply same_identity_refl.
  - unfold bind. pose proof (Hbody x s) as Hx.
    destruct (body x s) as [[[]|e] s']; cbn [snd] in *.
    + apply (same_identity_trans _ s'); [exact Hx|apply IH].
    + exact Hx.
Qed.

(** X7: only [enter_bootloader] writes the learned identity: after [erase_row],
    [send_data], [program_row], [exit_bootloader] or a whole [flash], whether
    they return or raise and whatever the device answered, the JTAG id, the
    device revision and the bootloader revision are what they were. *)
Theorem identity_is_written_by_enter_only
  (self : Bootloader.session) (array_id row_number : Z) (chunk : list Z)
  (firmware : list Bootloader.row) :
  same_identity self (snd (Bootloader.erase_row array_id row_number self)) /\
  same_identity self (snd (Bootloader.send_data chunk self)) /\
  same_identity self
    (snd (Bootloader.program_row array_id row_number chunk self)) /\
  same_identity self (snd (Bootloader.exit_bootloader self)) /\
  same_identity self (snd (Bootloader.flash firmware self)).
Proof.
  split; [apply report_same_identity, send_command_same_identity|].
  split; [apply report_same_identity, send_command_same_identity|].
  split; [apply report_same_identity, send_command_same_identity|].
  split; [repeat split|].
  rewrite flash_calls.
  apply for_each_same_identity. apply issue_same_identity.
Qed.

Lemma slice_clamped {A} (l : list A) (a b : Z) :
  0 <= a -> a <= b ->
  Py.slice l (Some a) (Some b)
  = firstn (Z.to_nat (b - a)) (skipn (Z.to_nat a) l).
Proof.
  intros Ha Hab. pose proof (len_nonneg l) as Hn.
  destruct (Z_le_gt_dec b (Py.len l)) as [Hb|Hb].
  - apply slice_inside; lia.
  - unfold Py.slice, Py.clamp.
    destruct (a <? 0) eqn:Ea; [apply Z.ltb_lt in Ea; lia|].
    destruct (b <? 0) eqn:Eb; [apply Z.ltb_lt in Eb; lia|].
    rewrite (Z.min_r b) by lia.
    destruct (Z_le_gt_dec a (Py.len l)) as [Hal|Hal].
    + rewrite Z.min_l by lia.
      rewrite !firstn_all2; [reflexivity| |];
        rewrite length_skipn; unfold Py.len in *; lia.
    + rewrite Z.min_r by lia. rewrite Z.sub_diag. cbn [Z.to_nat firstn].
      rewrite (skipn_all2 l) by (unfold Py.len in *; lia).
      rewrite firstn_nil. reflexivity.
Qed.

(** X8: the success branch of [enter_bootloader] reads payload bytes 0 to 4 one
    by one, so five bytes are what it needs, not eight.  With a good checksum
    and the success status: a payload of fewer than five bytes raises
    [IndexError], with the JTAG id already overwritten by the bytes that were
    there (unless there were none) and the two revisions untouched; a payload
    of five bytes or more returns [True], and the bootloader revision is
    whatever of bytes 5 to 7 exists, reversed. *)
Theorem enter_bootloader_needs_five_bytes
  (self s1 : Bootloader.session) (r : Bootloader.response)
  (Hresponse : Bootloader.send_command 0x38 [] self = (Ok r, s1))
  (Hchecksum : Bootloader.checksum_ok r = true)
  (Hstatus : Bootloader.status r = "CYRET_SUCCESS"%string) :
  let payload := Bootloader.data r in
  let after := snd (Bootloader.enter_bootloader self) in
  (Py.len payload < 5 ->
   fst (Bootloader.enter_bootloader self) = Raise IndexError /\
   Bootloader._device after = Bootloader._device s1 /\
   Bootloader.jtag_id after
   = (if Py.len payload =? 0 then Bootloader.jtag_id self
      else Some (identity_word payload)) /\
   Bootloader.device_revision after = Bootloader.device_revision self /\
   Bootloader.bootloader_revision after = Bootloader.bootloader_revision self) /\
  (5 <= Py.len payload ->
   Bootloader.enter_bootloader self
   = (Ok true,
      Bootloader.mk_session (Bootloader._device s1)
        (Some (identity_word payload))
        (Some (nth 4 payload 0))
        (Some (rev (firstn 3 (skipn 5 payload)))))).
Proof.
  intros payload after.
  pose proof (send_command_keeps_identity 0x38 [] self) as Hkeep.
  rewrite Hresponse in Hkeep. cbn [snd] in Hkeep.
  destruct Hkeep as (Hj & Hd & Hb).
  assert (Hok : Bootloader.is_success r = true)
    by (apply is_success_iff; auto).
  assert (Hrun : Bootloader.enter_bootloader self
    = (d0 <~ lift (Py.getitem payload 0) ;;
       _ <~ Bootloader.set_jtag_id (Some d0) ;;
       d1 <~ lift (Py.getitem payload 1) ;;
       _ <~ Bootloader.ior_jtag_id (Z.shiftl d1 8) ;;
       d2 <~ lift (Py.getitem payload 2) ;;
       _ <~ Bootloader.ior_jtag_id (Z.shiftl d2 16) ;;
       d3 <~ lift (Py.getitem payload 3) ;;
       _ <~ Bootloader.ior_jtag_id (Z.shiftl d3 24) ;;
       d4 <~ lift (Py.getitem payload 4) ;;
       _ <~ Bootloader.set_device_revision (Some d4) ;;
       _ <~ Bootloader.set_bootloader_revision
              (Some (rev (Py.slice payload (Some 5) (Some 8)))) ;;
       ret true) s1).
  { unfold Bootloader.enter_bootloader. unfold bind at 1.
    rewrite Hresponse, Hok. reflexivity. }
  unfold after. rewrite Hrun. clear Hrun after.
  rewrite slice_clamped by lia.
  change (Z.to_nat (8 - 5)) with 3%nat. change (Z.to_nat 5) with 5%nat.
  destruct s1 as [dev j dr br]. cbn [Bootloader.jtag_id
    Bootloader.device_revision Bootloader.bootloader_revision
    Bootloader._device] in *.
  subst j dr br.
  unfold identity_word.
  destruct payload as [|d0 [|d1 [|d2 [|d3 [|d4 rest]]]]].
  - split; [intros _|cbn; lia]. repeat split.
  - split; [intros _|cbn; lia]. cbn.
    rewrite !Z.lor_0_r. repeat split.
  - split; [intros _|cbn; lia]. cbn.
    rewrite !Z.lor_0_r. repeat split.
  - split; [intros _|cbn; lia]. cbn.
    rewrite !Z.lor_0_r. repeat split.
  - split; [intros _|cbn; lia]. cbn.
    repeat split.
  - split.
    + intros H. rewrite !len_cons in H. pose proof (len_nonneg rest). lia.
    + intros _. pose proof (len_nonneg rest) as Hrest.
      set (full := d0 :: d1 :: d2 :: d3 :: d4 :: rest).
      assert (Hlen : Py.len full = 5 + Py.len rest)
        by (unfold full; rewrite !len_cons; lia).
      assert (G0 : Py.getitem full 0 = Ok d0)
        by (rewrite getitem_in_range by lia; reflexivity).
      assert (G1 : Py.getitem full 1 = Ok d1)
        by (rewrite getitem_in_range by lia; reflexivity).
      assert (G2 : Py.getitem full 2 = Ok d2)
        by (rewrite getitem_in_range by lia; reflexivity).
      assert (G3 : Py.getitem full 3 = Ok d3)
        by (rewrite getitem_in_range by lia; reflexivity).
      assert (G4 : Py.getitem full 4 = Ok d4)
        by (rewrite getitem_in_range by lia; reflexivity).
      rewrite G0, G1, G2, G3, G4. reflexivity.
Qed.

Lemma enter_bootloader_needs_five_bytes_witness :
  let self := Bootloader.__init__ (constant_device (frame 0x00 [1; 2])) in
  fst (Bootloader.enter_bootloader self) = Raise IndexError /\
  Bootloader.jtag_id (snd (Bootloader.enter_bootloader self)) = Some 0x0201.
Proof.
  intros self.
  pose proof (enter_bootloader_needs_five_bytes self
                (after_exchange self (frame 0x38 []))
                (Bootloader.mk_response "CYRET_SUCCESS" [1; 2] true)
                eq_refl eq_refl eq_refl) as H.
  cbv zeta in H. destruct H as [Hshort _].
  destruct (Hshort ltac:(vm_compute; reflexivity)) as (Hraise & _ & Hid & _).
  split; [exact Hraise|exact Hid].
Defined.

(** ** Flashing on any device *)

Lemma for_each_issue_trace (calls : list call) (s : Bootloader.session) :
  Forall (fun c => Py.len (payload_of c) <= 57) calls ->
  let run := for_each calls issue s in
  exists k : nat,
    (k <= List.length calls)%nat /\
    writes_of (log_of (snd run))
    = writes_of (log_of s) ++ map wire (firstn k calls) /\
    (fst run = Ok tt -> k = List.length calls) /\
    (forall e, fst run = Raise e ->
       exists earlier raw,
         log_of (snd run) = earlier ++ [hid.Read 64 raw] /\
         Bootloader._parse_response raw = Raise e).
Proof.
  intros Hfit. revert s.
  induction Hfit as [|c calls Hc Hfit IH]; intros s run.
  - exists 0%nat. cbn. rewrite app_nil_r.
    repeat split; [lia|discriminate].
  - unfold run. cbn [for_each]. unfold bind.
    rewrite issue_run by assumption.
    destruct (Bootloader._parse_response (next_reply s (wire c)))
      as [r|e] eqn:Hparse; cbn [rbind].
    + destruct (IH (after_exchange s (wire c))) as (k & Hk & Hw & Hok & Herr).
      exists (S k). cbn [List.length firstn map].
      split; [lia|]. split; [|split].
      * rewrite Hw. unfold after_exchange, log_of.
        cbn [Bootloader._device hid.io_log].
        rewrite writes_of_app. cbn [writes_of flat_map app].
        rewrite <- app_assoc. reflexivity.
      * intros H. rewrite (Hok H). reflexivity.
      * exact Herr.
    + exists 1%nat. cbn [List.length firstn map fst snd].
      split; [lia|]. split; [|split].
      * unfold after_exchange, log_of. cbn [Bootloader._device hid.io_log].
        rewrite writes_of_app. reflexivity.
      * discriminate.
      * intros e' [= <-].
        exists (log_of s ++ [hid.Wrote (wire c)]),
               (next_reply s (wire c)).
        split; [|exact Hparse].
        unfold after_exchange, log_of. cbn [Bootloader._device hid.io_log].
        rewrite <- app_assoc. reflexivity.
Qed.

(** X9: [flash] on any device and any image: the packets it writes are the
    first [k] packets of the splitting rule, in order; it returns normally
    only after writing all of them, and when it raises, the exception is the
    one that decoding the last answer read has raised, so a row command that
    merely reports failure never stops the loop. *)
Theorem flash_stops_only_on_undecodable_answer
  (firmware : list Bootloader.row) (self : Bootloader.session) :
  let calls := flat_map spec_row_calls firmware in
  let run := Bootloader.flash firmware self in
  exists k : nat,
    (k <= List.length calls)%nat /\
    writes_of (log_of (snd run))
    = writes_of (log_of self) ++ map wire (firstn k calls) /\
    (fst run = Ok tt -> k = List.length calls) /\
    (forall e, fst run = Raise e ->
       exists earlier raw,
         log_of (snd run) = earlier ++ [hid.Read 64 raw] /\
         Bootloader._parse_response raw = Raise e).
Proof.
  intros calls run. unfold run. rewrite flash_calls. fold calls.
  apply for_each_issue_trace.
  apply (Forall_impl _ (P := fun c => Py.len (payload_of c) <= payload_bound c)).
  - intros c Hc. pose proof (payload_bound_le c). lia.
  - apply flat_map_fit.
Qed.

Lemma In_firstn {A} (k : nat) (l : list A) (x : A) :
  In x (firstn k l) -> In x l.
Proof.
  revert l. induction k as [|k IH]; intros [|y l]; cbn; try tauto.
  intros [H|H]; auto.
Qed.

Lemma spec_row_calls_bytes (r : Bootloader.row) :
  well_typed_row r ->
  Forall (fun c => Forall is_byte (payload_of c)) (spec_row_calls r).
Proof.
  destruct r as [[array_id row_number] data]. intros (Ha & Hn & Hd).
  destruct (spec_row_calls_shape array_id row_number data)
    as (chunks & last & Hcalls & _ & _ & Hcat & _ & _).
  rewrite <- Hcat in Hd. apply Forall_app in Hd. destruct Hd as [Hc Hl].
  apply Forall_concat in Hc.
  rewrite Hcalls. apply Forall_app. split.
  - apply Forall_map. exact Hc.
  - constructor; [|constructor]. cbn [payload_of].
    apply Forall_app. split; [|exact Hl].
    rewrite land_byte, shiftr_byte.
    pose proof (Z.mod_pos_bound row_number 256 ltac:(lia)).
    assert (0 <= row_number / 256 < 256)
      by (split; [apply Z.div_pos; lia|apply Z.div_lt_upper_bound; lia]).
    repeat constructor; unfold is_byte in *; lia.
Qed.

(** X10: what [flash] puts on the wire is always a HID report: for an image whose
    rows have a byte array id, a 16-bit row number and byte data, every
    packet written during [flash], on any device, is a list of bytes of at
    most 58 items, well under the 64 of a report. *)
Theorem flash_writes_reports
  (firmware : list Bootloader.row) (self : Bootloader.session)
  (Hrows : Forall well_typed_row firmware) :
  forall packet,
    In packet (writes_of (log_of (snd (Bootloader.flash firmware self)))) ->
    In packet (writes_of (log_of self)) \/
    (Forall is_byte packet /\ Py.len packet <= 58).
Proof.
  intros packet Hin.
  rewrite flash_calls in Hin.
  assert (Hfit : Forall (fun c => Py.len (payload_of c) <= payload_bound c)
                   (flat_map spec_row_calls firmware))
    by apply flat_map_fit.
  assert (Hfit57 : Forall (fun c => Py.len (payload_of c) <= 57)
                     (flat_map spec_row_calls firmware)).
  { apply (Forall_impl _ (P := fun c => Py.len (payload_of c) <= payload_bound c)).
    - intros c Hc. pose proof (payload_bound_le c). lia.
    - exact Hfit. }
  destruct (for_each_issue_trace _ self Hfit57) as (k & _ & Hw & _).
  rewrite Hw in Hin. apply in_app_or in Hin.
  destruct Hin as [Hold|Hnew]; [left; exact Hold|right].
  apply in_map_iff in Hnew. destruct Hnew as (c & <- & Hc).
  apply In_firstn in Hc.
  rewrite Forall_forall in Hfit. pose proof (Hfit c Hc) as Hlen.
  assert (Hbytes : Forall is_byte (payload_of c)).
  { apply in_flat_map in Hc. destruct Hc as (r & Hr & Hcr).
    rewrite Forall_forall in Hrows.
    pose proof (spec_row_calls_bytes r (Hrows r Hr)) as Hb.
    rewrite Forall_forall in Hb. exact (Hb c Hcr). }
  unfold wire. split.
  - apply frame_bytes.
    + destruct c; cbn; unfold is_byte; lia.
    + exact Hbytes.
    + pose proof (payload_bound_le c). lia.
  - rewrite len_frame.
    assert (payload_bound c <= 51)
      by (unfold payload_bound; destruct (is_send_data c); lia).
    lia.
Qed.

Lemma flash_writes_reports_witness :
  Forall is_byte (wire (SendData (repeat 0xaa 48))) /\
  Py.len (wire (SendData (repeat 0xaa 48))) <= 58.
Proof.
  destruct (flash_writes_reports sample_firmware
              (Bootloader.__init__ (constant_device ack))
              ltac:(repeat constructor; unfold is_byte; lia)
              (wire (SendData (repeat 0xaa 48)))
              ltac:(vm_compute; left; reflexivity)) as [[]|H].
  exact H.
Defined.

(** ** The firmware container *)

(** X13: the line checksum of [Cyacd] is a byte that brings the sum of a line to
    0 modulo 256, and it is the low byte of the packet checksum that
    [Bootloader] computes over the same bytes. *)
Theorem line_checksum_is_low_byte (bytes : list Z) :
  0 <= Cyacd._checksum bytes <= 255 /\
  (total bytes + Cyacd._checksum bytes) mod 256 = 0 /\
  total (bytes ++ [Cyacd._checksum bytes]) mod 256 = 0 /\
  Cyacd._checksum bytes = Bootloader._checksum bytes mod 256 /\
  Cyacd._checksum bytes = Z.land (Bootloader._checksum bytes) 0xff.
Proof.
  rewrite land_byte, cyacd_checksum_spec, bootloader_checksum_spec.
  unfold spec_checksum.
  pose proof (Z.mod_pos_bound (- total bytes) 256 ltac:(lia)) as Hb.
  assert (Hzero : (total bytes + - total bytes mod 256) mod 256 = 0).
  { rewrite Zplus_mod_idemp_r.
    replace (total bytes + - total bytes) with 0 by lia. reflexivity. }
  assert (Hlow : - total bytes mod 256 = (- total bytes mod 65536) mod 256).
  { pose proof (Z.div_mod (- total bytes) 65536 ltac:(lia)) as Hdm.
    rewrite Hdm at 1.
    replace (65536 * (- total bytes / 65536) + - total bytes mod 65536)
      with (- total bytes mod 65536 + (256 * (- total bytes / 65536)) * 256)
      by lia.
    apply Z_mod_plus_full. }
  split; [lia|]. split; [exact Hzero|]. split; [|split; exact Hlow].
  rewrite total_app. cbn [total fold_right]. rewrite Z.add_0_r. exact Hzero.
Qed.

Lemma In_skipn {A} (k : nat) (l : list A) (x : A) :
  In x (skipn k l) -> In x l.
Proof.
  revert l. induction k as [|k IH]; intros [|y l]; cbn; auto.
Qed.

Lemma slice_bytes (l : list Z) (lo hi : option Z) :
  Forall is_byte l -> Forall is_byte (Py.slice l lo hi).
Proof.
  intros H. rewrite Forall_forall in *. intros x Hx.
  unfold Py.slice in Hx. apply In_firstn, In_skipn in Hx. auto.
Qed.

(** X14: a record line that decodes is handled in one of three ways, by its
    length against the length it declares: when it is too short to hold the
    declared data and a checksum byte, [IndexError]; otherwise the byte at
    the checksum's place is compared with the checksum of the whole line but
    its last byte, and the line gives its row or fails the assertion.  A line
    longer than declared is therefore not refused for its length. *)
Theorem record_line_cases
  (line : string) (l : list Z) (Hdecoded : decoded line = Ok l) :
  let n := declared_length l in
  (Py.len l <= 5 + n -> Cyacd.parse_line line = Raise IndexError) /\
  (5 + n < Py.len l ->
   Cyacd.parse_line line
   = if nth (Z.to_nat (5 + n)) l 0 =? Cyacd._checksum (removelast l)
     then Ok (row_of l)
     else Raise (AssertionError line_checksum)).
Proof.
  intros n.
  pose proof (a2b_hex_bytes _ _ Hdecoded) as Hbytes.
  pose proof (nth_is_byte l 2 Hbytes) as Hb2.
  pose proof (nth_is_byte l 3 Hbytes) as Hb3.
  pose proof (nth_is_byte l 4 Hbytes) as Hb4.
  assert (Hn : 0 <= n) by (unfold n, declared_length, is_byte in *; lia).
  unfold Cyacd.parse_line. unfold decoded in Hdecoded. rewrite Hdecoded.
  cbn [rbind].
  destruct (Z_lt_le_dec (Py.len l) 5) as [Hshort|Hlong].
  - split; [intros _|lia].
    destruct l as [|a [|b [|c [|d [|e rest]]]]]; try reflexivity.
    rewrite !len_cons in Hshort. pose proof (len_nonneg rest). lia.
  - rewrite !getitem_in_range by lia. cbn [rbind].
    change (Z.to_nat 0) with 0%nat. change (Z.to_nat 1) with 1%nat.
    change (Z.to_nat 2) with 2%nat. change (Z.to_nat 3) with 3%nat.
    change (Z.to_nat 4) with 4%nat.
    rewrite !big_endian_16 by assumption.
    fold (declared_length l). fold n.
    split; intros Hlen.
    + rewrite getitem_out_of_range by lia. reflexivity.
    + rewrite getitem_in_range by lia. cbn [rbind].
      assert (Hne : l <> []) by (intros ->; cbn in Hlong; lia).
      pose proof (app_removelast_last 0 Hne) as Hsplit.
      assert (Hprefix : Py.slice l None (Some (-1)) = removelast l).
      { rewrite Hsplit at 1. apply slice_all_but_last. }
      rewrite Hprefix.
      rewrite slice_inside by lia.
      replace (5 + n - 5) with n by lia.
      change (Z.to_nat 5) with 5%nat.
      unfold row_of. fold n.
      destruct (_ =? _); reflexivity.
Qed.

Lemma record_line_cases_witness :
  Cyacd.parse_line ":0100050002AABB"%string = Raise IndexError.
Proof.
  exact (proj1 (record_line_cases ":0100050002AABB"
                  [1; 0; 5; 0; 2; 0xaa; 0xbb] eq_refl)
           ltac:(vm_compute; discriminate)).
Defined.

Lemma getitem_ok (l : list Z) (i v : Z) :
  0 <= i -> Py.getitem l i = Ok v ->
  i < Py.len l /\ v = nth (Z.to_nat i) l 0.
Proof.
  intros Hi H.
  destruct (Z_lt_le_dec i (Py.len l)) as [Hin|Hout].
  - rewrite getitem_in_range in H by lia. injection H as <-. auto.
  - rewrite getitem_out_of_range in H by lia. discriminate.
Qed.

(** [parse] once the header has decoded to six bytes or more. *)
Lemma parse_after_header (img : Cyacd.image) (header : string)
      (lines : list string) (hb : list Z) :
  Cyacd.file img = header :: lines ->
  decoded_header header = Ok hb -> 6 <= Py.len hb ->
  let id := Z.lor (Z.lor (Z.lor (nth 3 hb 0) (Z.shiftl (nth 2 hb 0) 8))
                     (Z.shiftl (nth 1 hb 0) 16))
              (Z.shiftl (nth 0 hb 0) 24) in
  Cyacd.parse img
  = match Cyacd.parse_lines lines [] with
    | Ok rows =>
        (Ok tt,
         Cyacd.mk_image (Cyacd.file img) (Some id) (Some (nth 4 hb 0))
           (Some (nth 5 hb 0)) (Some rows))
    | Raise e =>
        (Raise e,
         Cyacd.mk_image (Cyacd.file img) (Some id) (Some (nth 4 hb 0))
           (Some (nth 5 hb 0)) (Cyacd.firmware img))
    end.
Proof.
  intros Hfile Hheader Hlen id.
  destruct img as [f sid srev ctype fw]. cbn [Cyacd.file] in *. subst f.
  unfold Cyacd.parse. unfold bind at 1. unfold gets. cbn [Cyacd.file].
  unfold bind at 1. unfold lift at 1. cbn [Py.pop0 fst snd].
  unfold decoded_header in Hheader.
  unfold bind at 1. unfold lift at 1. rewrite Hheader.
  rewrite !getitem_in_range by lia.
  destruct (Cyacd.parse_lines lines []); reflexivity.
Qed.

(** What [parse] can end with, on any object. *)
Lemma parse_inv (img : Cyacd.image) :
  match Cyacd.parse img with
  | (Ok _, img') =>
      exists header lines hb rows,
        Cyacd.file img = header :: lines /\
        decoded_header header = Ok hb /\
        6 <= Py.len hb /\
        Cyacd.parse_lines lines [] = Ok rows /\
        Cyacd.file img' = Cyacd.file img /\
        Cyacd.silicon_id img'
        = Some (Z.lor (Z.lor (Z.lor (nth 3 hb 0) (Z.shiftl (nth 2 hb 0) 8))
                         (Z.shiftl (nth 1 hb 0) 16))
                  (Z.shiftl (nth 0 hb 0) 24)) /\
        Cyacd.silicon_revision img' = Some (nth 4 hb 0) /\
        Cyacd.checksum_type img' = Some (nth 5 hb 0) /\
        Cyacd.firmware img' = Some rows
  | (Raise _, img') =>
      Cyacd.file img' = Cyacd.file img /\
      Cyacd.firmware img' = Cyacd.firmware img
  end.
Proof.
  destruct (Cyacd.file img) as [|header lines] eqn:Hfile.
  { destruct img as [f sid srev ctype fw]. cbn [Cyacd.file] in Hfile.
    subst f. cbn. split; reflexivity. }
  destruct (decoded_header header) as [hb|e] eqn:Hheader.
  2:{ destruct img as [f sid srev ctype fw]. cbn [Cyacd.file] in Hfile.
      subst f. unfold decoded_header in Hheader.
      unfold Cyacd.parse. unfold bind at 1. unfold gets. cbn [Cyacd.file].
      unfold bind at 1. unfold lift at 1. cbn [Py.pop0 fst snd].
      unfold bind at 1. unfold lift at 1. rewrite Hheader.
      split; reflexivity. }
  destruct (Z_le_gt_dec 6 (Py.len hb)) as [Hlen|Hlen].
  - rewrite (parse_after_header img header lines hb Hfile Hheader Hlen).
    destruct (Cyacd.parse_lines lines []) as [rows|e] eqn:Hrows.
    + exists header, lines, hb, rows. cbn. rewrite ?Hfile.
      repeat split; try assumption; reflexivity.
    + cbn. rewrite Hfile. split; reflexivity.
  - destruct img as [f sid srev ctype fw]. cbn [Cyacd.file] in Hfile.
    subst f. unfold decoded_header in Hheader.
    unfold Cyacd.parse. unfold bind at 1. unfold gets. cbn [Cyacd.file].
    unfold bind at 1. unfold lift at 1. cbn [Py.pop0 fst snd].
    unfold bind at 1. unfold lift at 1. rewrite Hheader.
    pose proof (len_nonneg hb) as Hn.
    assert (Hcases : Py.len hb = 0 \/ Py.len hb = 1 \/ Py.len hb = 2 \/
                     Py.len hb = 3 \/ Py.len hb = 4 \/ Py.len hb = 5) by lia.
    destruct hb as [|a [|b [|c [|d [|e [|g rest]]]]]];
      try (cbn; split; reflexivity).
    rewrite !len_cons in Hlen. pose proof (len_nonneg rest). lia.
Qed.

(** X15: a parse that fails stores no rows: whatever the file holds, when [parse]
    raises, from an empty file, a header that does not decode or is shorter
    than six bytes, or a bad record, [firmware] is what it was before
    ([None] on a fresh object), so a caller cannot flash half an image. *)
Theorem failed_parse_stores_no_rows (img : Cyacd.image) :
  let run := Cyacd.parse img in
  (forall e, fst run = Raise e ->
     Cyacd.firmware (snd run) = Cyacd.firmware img) /\
  (forall firmware_file e,
     img = Cyacd.__init__ firmware_file -> fst run = Raise e ->
     Cyacd.firmware (snd run) = None) /\
  (Cyacd.file img = [] -> fst run = Raise IndexError /\ snd run = img).
Proof.
  intros run. unfold run. pose proof (parse_inv img) as H.
  destruct (Cyacd.parse img) as [[[]|e] img'] eqn:Hrun; cbn [fst snd].
  - destruct H as (header & lines & hb & rows & Hfile & _ & _ & _ & Hf & _).
    split; [discriminate|]. split; [discriminate|].
    rewrite Hfile. discriminate.
  - destruct H as [Hf Hfw].
    split; [intros; exact Hfw|].
    split; [intros firmware_file e' -> _; exact Hfw|].
    intros Hempty. destruct img as [f sid srev ctype fw].
    cbn [Cyacd.file] in Hempty. subst f. cbn in Hrun.
    injection Hrun as <- <-. split; reflexivity.
Qed.

Lemma getitem_byte (l : list Z) (i v : Z) :
  Forall is_byte l -> Py.getitem l i = Ok v -> is_byte v.
Proof.
  intros Hl H. unfold Py.getitem in H.
  destruct (_ || _); [discriminate|]. injection H as <-.
  apply nth_is_byte. exact Hl.
Qed.

Lemma parse_line_typed (line : string) (r : Bootloader.row) :
  Cyacd.parse_line line = Ok r -> well_typed_row r.
Proof.
  unfold Cyacd.parse_line.
  destruct (binascii.a2b_hex _) as [l|] eqn:Hdec; [|discriminate].
  pose proof (a2b_hex_bytes _ _ Hdec) as Hbytes. cbn [rbind].
  destruct (Py.getitem l 0) as [a|] eqn:G0; [|discriminate]. cbn [rbind].
  destruct (Py.getitem l 1) as [r1|] eqn:G1; [|discriminate]. cbn [rbind].
  destruct (Py.getitem l 2) as [r2|] eqn:G2; [|discriminate]. cbn [rbind].
  destruct (Py.getitem l 3) as [l3|] eqn:G3; [|discriminate]. cbn [rbind].
  destruct (Py.getitem l 4) as [l4|] eqn:G4; [|discriminate]. cbn [rbind].
  match goal with
  | |- context [Py.getitem l ?i] =>
      destruct (Py.getitem l i) as [c|]; [|discriminate]
  end.
  cbn [rbind].
  match goal with
  | |- context [assert ?b ?site] =>
      destruct (assert b site); [|discriminate]
  end.
  cbn [rbind]. intros H.
  apply (f_equal (fun x => match x with Ok v => v | Raise _ => r end)) in H.
  cbv beta iota in H. subst r.
  apply (getitem_byte _ _ _ Hbytes) in G0, G1, G2.
  unfold well_typed_row.
  split; [exact G0|]. split.
  - rewrite big_endian_16 by assumption. unfold is_byte in *. lia.
  - apply slice_bytes. exact Hbytes.
Qed.

Lemma parse_lines_typed (lines : list string) :
  forall firmware rows,
    Cyacd.parse_lines lines firmware = Ok rows ->
    Forall well_typed_row firmware ->
    Forall well_typed_row rows /\
    Py.len rows = Py.len firmware + Py.len lines.
Proof.
  induction lines as [|line lines IH]; intros firmware rows;
    cbn [Cyacd.parse_lines].
  - intros [= <-] H. split; [exact H|]. change (Py.len (@nil string)) with 0.
    lia.
  - destruct (Cyacd.parse_line line) as [r|] eqn:Hline; [|discriminate].
    cbn [rbind]. intros Hrest Hfw.
    destruct (IH _ _ Hrest) as [Ht Hl].
    + apply Forall_app. split; [exact Hfw|].
      constructor; [|constructor]. exact (parse_line_typed _ _ Hline).
    + split; [exact Ht|].
      unfold Py.len in *. rewrite length_app in Hl.
      cbn [List.length] in *. lia.
Qed.

(** X16: a parse that succeeds gives rows fit for the wire: [firmware] holds one
    row per record line of the file, in each of them the array id is a byte,
    the row number lies in 0..65535 and the data are bytes; the silicon id
    lies in 0..2^32-1 and the revision and checksum type are bytes. *)
Theorem parsed_image_is_well_typed
  (img img' : Cyacd.image) (Hrun : Cyacd.parse img = (Ok tt, img')) :
  exists rows id revision type,
    Cyacd.firmware img' = Some rows /\
    Py.len rows + 1 = Py.len (Cyacd.file img) /\
    Forall well_typed_row rows /\
    Cyacd.silicon_id img' = Some id /\ 0 <= id < 2 ^ 32 /\
    Cyacd.silicon_revision img' = Some revision /\ is_byte revision /\
    Cyacd.checksum_type img' = Some type /\ is_byte type.
Proof.
  pose proof (parse_inv img) as H. rewrite Hrun in H.
  destruct H as (header & lines & hb & rows & Hfile & Hheader & Hlen & Hrows
                 & _ & Hid & Hrev & Htype & Hfw).
  pose proof (a2b_hex_bytes _ _ Hheader) as Hbytes.
  destruct (parse_lines_typed lines [] rows Hrows (Forall_nil _)) as [Ht Hl].
  pose proof (nth_is_byte hb 0 Hbytes) as B0.
  pose proof (nth_is_byte hb 1 Hbytes) as B1.
  pose proof (nth_is_byte hb 2 Hbytes) as B2.
  pose proof (nth_is_byte hb 3 Hbytes) as B3.
  eexists rows, _, _, _.
  split; [exact Hfw|]. split.
  { rewrite Hfile, len_cons, Hl. change (Py.len (@nil Bootloader.row)) with 0.
    lia. }
  split; [exact Ht|]. split; [exact Hid|]. split.
  { rewrite little_endian_32 by assumption. unfold is_byte in *. lia. }
  split; [exact Hrev|]. split; [apply nth_is_byte; exact Hbytes|].
  split; [exact Htype|]. apply nth_is_byte; exact Hbytes.
Qed.

Lemma parsed_image_is_well_typed_witness :
  exists rows,
    Cyacd.firmware (snd (Cyacd.parse (Cyacd.__init__ sample_file))) = Some rows /\
    Forall well_typed_row rows.
Proof.
  destruct (parsed_image_is_well_typed (Cyacd.__init__ sample_file)
              (snd (Cyacd.parse (Cyacd.__init__ sample_file))) eq_refl)
    as (rows & _ & _ & _ & Hfw & _ & Ht & _).
  exists rows. split; [exact Hfw|exact Ht].
Defined.

(** X17: the header is read big-endian and is stored before the records are
    looked at: when the first line decodes to six bytes or more (bytes after
    the sixth are ignored), then whether or not the records parse, the
    silicon id is bytes 0 to 3 read big-endian, the silicon revision byte 4
    and the checksum type byte 5. *)
Theorem header_is_stored_first
  (img : Cyacd.image) (header : string) (lines : list string) (hb : list Z)
  (Hfile : Cyacd.file img = header :: lines)
  (Hheader : decoded_header header = Ok hb)
  (Hlength : 6 <= Py.len hb) :
  let after := snd (Cyacd.parse img) in
  Cyacd.silicon_id after
  = Some (nth 0 hb 0 * 2 ^ 24 + nth 1 hb 0 * 2 ^ 16
          + nth 2 hb 0 * 2 ^ 8 + nth 3 hb 0) /\
  Cyacd.silicon_revision after = Some (nth 4 hb 0) /\
  Cyacd.checksum_type after = Some (nth 5 hb 0).
Proof.
  intros after. unfold after.
  rewrite (parse_after_header img header lines hb Hfile Hheader Hlength).
  pose proof (a2b_hex_bytes _ _ Hheader) as Hbytes.
  rewrite little_endian_32 by (apply nth_is_byte; exact Hbytes).
  destruct (Cyacd.parse_lines lines []); cbn; repeat split; f_equal; lia.
Qed.

Lemma header_is_stored_first_witness :
  Cyacd.silicon_id
    (snd (Cyacd.parse
            (Cyacd.__init__ ["0001020304AA55"%string; ":00"%string])))
  = Some 0x00010203.
Proof.
  exact (proj1 (header_is_stored_first
                  (Cyacd.__init__ ["0001020304AA55"%string; ":00"%string])
                  "0001020304AA55" [":00"%string] [0; 1; 2; 3; 4; 0xaa; 0x55]
                  eq_refl eq_refl ltac:(vm_compute; discriminate))).
Defined.

Lemma failed_parse_stores_no_rows_witness :
  Cyacd.firmware
    (snd (Cyacd.parse
            (Cyacd.__init__ ["0001020304AA"%string; ":0100050002AABB94"%string])))
  = None.
Proof.
  exact (proj1 (proj2 (failed_parse_stores_no_rows
           (Cyacd.__init__ ["0001020304AA"%string; ":0100050002AABB94"%string])))
           _ (AssertionError line_checksum) eq_refl eq_refl).
Defined.

Lemma flash_stops_only_on_undecodable_answer_witness :
  let self := Bootloader.__init__ (constant_device [0x01; 0x01; 0; 0; 0xfe; 0xff; 0x17]) in
  fst (Bootloader.flash sample_firmware self) = Raise (KeyError 1) /\
  exists earlier raw,
    log_of (snd (Bootloader.flash sample_firmware self))
    = earlier ++ [hid.Read 64 raw] /\
    Bootloader._parse_response raw = Raise (KeyError 1).
Proof.
  intros self.
  destruct (flash_stops_only_on_undecodable_answer sample_firmware self)
    as (k & _ & _ & _ & Herr).
  split; [reflexivity|].
  exact (Herr (KeyError 1) eq_refl).
Defined.

(** ** The entry point *)

Lemma py_eq_iff (a b : option Z) : Main.py_eq a b = true <-> a = b.
Proof.
  destruct a as [x|], b as [y|]; cbn; split; try discriminate; auto.
  - intros H. apply Z.eqb_eq in H. congruence.
  - intros [= ->]. apply Z.eqb_refl.
Qed.

Lemma found_iff (enumeration : list Main.enumerated) (vid pid : Z) :
  Main.found enumeration vid pid = true <->
  exists e, In e enumeration /\
            Main.vendor_id e = vid /\ Main.product_id e = pid.
Proof.
  induction enumeration as [|e rest IH]; cbn [Main.found In].
  - split; [discriminate|intros (e & [] & _)].
  - destruct ((Main.vendor_id e =? vid) && (Main.product_id e =? pid)) eqn:E.
    + split; [intros _|reflexivity].
      apply andb_true_iff in E. destruct E as [E1 E2].
      apply Z.eqb_eq in E1, E2. exists e. auto.
    + rewrite IH. split.
      * intros (e' & Hin & H). exists e'. auto.
      * intros (e' & [<-|Hin] & Hv & Hp).
        -- rewrite Hv, Hp, !Z.eqb_refl in E. discriminate.
        -- exists e'. auto.
Qed.

Lemma enter_bootloader_device (s : Bootloader.session) :
  Bootloader._device (snd (Bootloader.enter_bootloader s))
  = Bootloader._device (after_exchange s (frame 0x38 [])).
Proof.
  unfold Bootloader.enter_bootloader. unfold bind at 1.
  rewrite send_command_run. change (Py.len [] <=? 57) with true. cbv iota.
  destruct (Bootloader._parse_response _) as [r|e]; [|reflexivity].
  destruct (Bootloader.is_success r); [|reflexivity].
  cbv [bind lift ret modify gets ior Bootloader.set_jtag_id
       Bootloader.ior_jtag_id Bootloader.set_device_revision
       Bootloader.set_bootloader_revision].
  repeat match goal with
         | |- context [Py.getitem ?l ?i] =>
             destruct (Py.getitem l i); [|reflexivity]
         end.
  reflexivity.
Qed.

(** [enter_bootloader] returns [False] only from its [else] branch, where
    nothing has been stored. *)
Lemma enter_bootloader_false (s s1 : Bootloader.session) :
  Bootloader.enter_bootloader s = (Ok false, s1) -> same_identity s s1.
Proof.
  unfold Bootloader.enter_bootloader. unfold bind at 1.
  pose proof (send_command_same_identity 0x38 [] s) as Hsame.
  destruct (Bootloader.send_command 0x38 [] s) as [[r|e] s'];
    [|discriminate].
  cbn [snd] in Hsame.
  destruct (Bootloader.is_success r).
  - cbv [bind lift ret modify gets ior Bootloader.set_jtag_id
         Bootloader.ior_jtag_id Bootloader.set_device_revision
         Bootloader.set_bootloader_revision].
    repeat match goal with
           | |- context [Py.getitem ?l ?i] =>
               destruct (Py.getitem l i); [|discriminate]
           end.
    discriminate.
  - intros [= <-]. exact Hsame.
Qed.

Lemma enter_bootloader_writes (s : Bootloader.session) :
  writes_of (log_of (snd (Bootloader.enter_bootloader s)))
  = writes_of (log_of s) ++ [frame 0x38 []].
Proof.
  rewrite enter_bootloader_log, writes_of_app. reflexivity.
Qed.

Lemma exit_bootloader_writes (s : Bootloader.session) :
  writes_of (log_of (snd (Bootloader.exit_bootloader s)))
  = writes_of (log_of s) ++ [frame 0x3b []].
Proof.
  rewrite exit_bootloader_run. unfold log_of at 1.
  cbn [snd Bootloader._device hid.io_log].
  rewrite writes_of_app. reflexivity.
Qed.

(** X18: the enumeration loop of [main] finds a device exactly when some
    enumerated entry has both the vendor id and the product id asked for;
    when none has, [main] ends with [sys.exit(1)] before the [Bootloader]
    object is constructed: whatever the device and the firmware file, neither
    the session nor the image exists, so nothing is opened or written and the
    file is not read. *)
Theorem main_needs_enumerated_device
  (vid pid : Z) (enumeration : list Main.enumerated) :
  let listed :=
    exists e, In e enumeration /\
              Main.vendor_id e = vid /\ Main.product_id e = pid in
  (Main.found enumeration vid pid = true <-> listed) /\
  (~ listed ->
   forall (device : hid.device) (firmware_file : list string),
     Main.main vid pid enumeration device firmware_file
     = Main.mk_final (Main.SystemExit 1) None None).
Proof.
  intros listed.
  pose proof (found_iff enumeration vid pid) as Hiff. fold listed in Hiff.
  split; [exact Hiff|].
  intros Hnot device firmware_file. unfold Main.main.
  destruct (Main.found enumeration vid pid); [|reflexivity].
  exfalso. apply Hnot, Hiff. reflexivity.
Qed.

Lemma main_needs_enumerated_device_witness :
  Main.main 0x04b4 0xb71d [Main.mk_enumerated 0x04b4 0xf13b]
    (constant_device ack) sample_file
  = Main.mk_final (Main.SystemExit 1) None None.
Proof.
  apply (proj2 (main_needs_enumerated_device 0x04b4 0xb71d
                  [Main.mk_enumerated 0x04b4 0xf13b])).
  intros (e & [<-|[]] & _ & Hp). vm_compute in Hp. discriminate Hp.
Defined.

(** X19: [main] enters the bootloader before it reads the firmware file: when the
    device is listed and [enter_bootloader] has returned, a file that does
    not parse ends the run with the parse exception; by then the enter
    packet has been written, nothing else is, and the exit packet is never
    sent. *)
Theorem main_enters_before_parsing
  (vid pid : Z) (enumeration : list Main.enumerated)
  (device : hid.device) (firmware_file : list string)
  (entered : bool) (s1 : Bootloader.session) (e : exn) (img : Cyacd.image)
  (Hfound : Main.found enumeration vid pid = true)
  (Henter : Bootloader.enter_bootloader (Bootloader.__init__ device)
            = (Ok entered, s1))
  (Hparse : Cyacd.parse (Cyacd.__init__ firmware_file) = (Raise e, img)) :
  Main.main vid pid enumeration device firmware_file
  = Main.mk_final (Main.Uncaught e) (Some s1) (Some img) /\
  writes_of (log_of s1) = writes_of (hid.io_log device) ++ [frame 0x38 []] /\
  Cyacd.firmware img = None.
Proof.
  split; [|split].
  - unfold Main.main. rewrite Hfound, Henter, Hparse. reflexivity.
  - pose proof (enter_bootloader_writes (Bootloader.__init__ device)) as H.
    rewrite Henter in H. exact H.
  - pose proof (parse_inv (Cyacd.__init__ firmware_file)) as H.
    rewrite Hparse in H. exact (proj2 H).
Qed.

Lemma main_enters_before_parsing_witness :
  Main.ending (Main.main 1 2 (one_device 1 2) refusing_device corrupt_file)
  = Main.Uncaught (AssertionError line_checksum).
Proof.
  exact (f_equal Main.ending
           (proj1 (main_enters_before_parsing 1 2 (one_device 1 2)
                     refusing_device corrupt_file false
                     (snd (Bootloader.enter_bootloader
                             (Bootloader.__init__ refusing_device)))
                     (AssertionError line_checksum)
                     (snd (Cyacd.parse (Cyacd.__init__ corrupt_file)))
                     eq_refl eq_refl eq_refl))).
Defined.

(** X20: [main] flashes only a matching image: when the device is listed, the
    enter call has returned and the file has parsed, but the enter call
    returned [False] or the JTAG id or the device revision differs from the
    image's, nothing is flashed: the run ends normally having written the
    enter packet and the exit packet and nothing between them. *)
Theorem main_skips_flash_on_mismatch
  (vid pid : Z) (enumeration : list Main.enumerated)
  (device : hid.device) (firmware_file : list string)
  (entered : bool) (s1 : Bootloader.session) (img : Cyacd.image)
  (Hfound : Main.found enumeration vid pid = true)
  (Henter : Bootloader.enter_bootloader (Bootloader.__init__ device)
            = (Ok entered, s1))
  (Hparse : Cyacd.parse (Cyacd.__init__ firmware_file) = (Ok tt, img))
  (Hdiffer : entered = false \/
             Bootloader.jtag_id s1 <> Cyacd.silicon_id img \/
             Bootloader.device_revision s1 <> Cyacd.silicon_revision img) :
  Main.main vid pid enumeration device firmware_file
  = Main.mk_final Main.Finished
      (Some (snd (Bootloader.exit_bootloader s1))) (Some img) /\
  writes_of (log_of (snd (Bootloader.exit_bootloader s1)))
  = writes_of (hid.io_log device) ++ [frame 0x38 []; frame 0x3b []].
Proof.
  assert (Hgate :
    Main.py_eq (Bootloader.jtag_id s1) (Cyacd.silicon_id img)
    && Main.py_eq (Bootloader.device_revision s1) (Cyacd.silicon_revision img)
    = false).
  { apply andb_false_iff.
    destruct Hdiffer as [->|[Hj|Hr]].
    - left. apply enter_bootloader_false in Henter.
      destruct Henter as (Hj & _). cbn in Hj.
      pose proof (parse_inv (Cyacd.__init__ firmware_file)) as H.
      rewrite Hparse in H.
      destruct H as (header & lines & hb & rows & _ & _ & _ & _ & _ & Hid & _).
      rewrite Hj, Hid. reflexivity.
    - left. destruct (Main.py_eq _ _) eqn:E; [|reflexivity].
      apply py_eq_iff in E. contradiction.
    - right. destruct (Main.py_eq _ _) eqn:E; [|reflexivity].
      apply py_eq_iff in E. contradiction. }
  split.
  - unfold Main.main. rewrite Hfound, Henter, Hparse, Hgate.
    rewrite exit_bootloader_run. reflexivity.
  - rewrite exit_bootloader_writes.
    pose proof (enter_bootloader_writes (Bootloader.__init__ device)) as H.
    rewrite Henter in H. cbn [snd] in H. rewrite H.
    rewrite <- app_assoc. reflexivity.
Qed.

Lemma main_skips_flash_on_mismatch_witness :
  let run := Main.main 1 2 (one_device 1 2) refusing_device matching_file in
  Main.ending run = Main.Finished /\
  exists b,
    Main.bootloader run = Some b /\
    writes_of (log_of b) = [frame 0x38 []; frame 0x3b []].
Proof.
  intros run.
  destruct (main_skips_flash_on_mismatch 1 2 (one_device 1 2)
              refusing_device matching_file false
              (snd (Bootloader.enter_bootloader
                      (Bootloader.__init__ refusing_device)))
              (snd (Cyacd.parse (Cyacd.__init__ matching_file)))
              eq_refl eq_refl eq_refl (or_introl eq_refl)) as [Hrun Hw].
  unfold run. rewrite Hrun. split; [reflexivity|].
  eexists. split; [reflexivity|exact Hw].
Defined.

(** X21: the whole run on a matching image: when the device is listed, answers
    every packet with a frame that decodes, the enter call has stored the
    JTAG id and device revision that the parsed image carries, [main] ends
    normally and what it has written is the enter packet, the packets of the
    splitting rule for every row in file order, and the exit packet last. *)
Theorem main_flashes_matching_image
  (vid pid : Z) (enumeration : list Main.enumerated)
  (device : hid.device) (firmware_file : list string)
  (entered : bool) (s1 : Bootloader.session) (img : Cyacd.image)
  (Hfound : Main.found enumeration vid pid = true)
  (Hdevice : responsive device)
  (Henter : Bootloader.enter_bootloader (Bootloader.__init__ device)
            = (Ok entered, s1))
  (Hparse : Cyacd.parse (Cyacd.__init__ firmware_file) = (Ok tt, img))
  (Hid : Bootloader.jtag_id s1 = Cyacd.silicon_id img)
  (Hrevision : Bootloader.device_revision s1 = Cyacd.silicon_revision img) :
  exists rows final_session,
    Cyacd.firmware img = Some rows /\
    Main.main vid pid enumeration device firmware_file
    = Main.mk_final Main.Finished (Some final_session) (Some img) /\
    writes_of (log_of final_session)
    = writes_of (hid.io_log device)
        ++ [frame 0x38 []]
        ++ map wire (flat_map spec_row_calls rows)
        ++ [frame 0x3b []] /\
    same_identity s1 final_session.
Proof.
  pose proof (parse_inv (Cyacd.__init__ firmware_file)) as Hinv.
  rewrite Hparse in Hinv.
  destruct Hinv
    as (header & lines & hb & rows & _ & _ & _ & _ & _ & _ & _ & _ & Hfw).
  assert (Hgate :
    Main.py_eq (Bootloader.jtag_id s1) (Cyacd.silicon_id img)
    && Main.py_eq (Bootloader.device_revision s1) (Cyacd.silicon_revision img)
    = true).
  { apply andb_true_iff. split; apply py_eq_iff; assumption. }
  assert (Hdev1 : responsive (Bootloader._device s1)).
  { pose proof (enter_bootloader_device (Bootloader.__init__ device)) as H.
    rewrite Henter in H. cbn [snd] in H. rewrite H. exact Hdevice. }
  destruct (for_each_issue_responsive (flat_map spec_row_calls rows) s1)
    as (s2 & Hrun & Hw & Hrep & Hj & Hd & Hb).
  { apply (Forall_impl _ (P := fun c => Py.len (payload_of c) <= payload_bound c)).
    - intros c Hc. pose proof (payload_bound_le c). lia.
    - apply flat_map_fit. }
  { exact Hdev1. }
  exists rows, (snd (Bootloader.exit_bootloader s2)).
  split; [exact Hfw|]. split; [|split].
  - unfold Main.main. rewrite Hfound, Henter, Hparse, Hgate.
    unfold Main.flash. rewrite Hfw, flash_calls, Hrun.
    rewrite exit_bootloader_run. reflexivity.
  - rewrite exit_bootloader_writes, Hw.
    pose proof (enter_bootloader_writes (Bootloader.__init__ device)) as H.
    rewrite Henter in H. cbn [snd] in H. rewrite H.
    rewrite <- !app_assoc. reflexivity.
  - rewrite exit_bootloader_run. cbn [snd]. repeat split; assumption.
Qed.

Lemma main_flashes_matching_image_witness :
  exists final_session,
    Main.main 1 2 (one_device 1 2) identity_device matching_file
    = Main.mk_final Main.Finished (Some final_session)
        (Some (snd (Cyacd.parse (Cyacd.__init__ matching_file)))) /\
    writes_of (log_of final_session)
    = [ frame 0x38 [];
        frame 0x39 [1; 5; 0; 0xaa; 0xbb];
        frame 0x3b [] ].
Proof.
  destruct (main_flashes_matching_image 1 2 (one_device 1 2)
              identity_device matching_file true
              (snd (Bootloader.enter_bootloader
                      (Bootloader.__init__ identity_device)))
              (snd (Cyacd.parse (Cyacd.__init__ matching_file)))
              eq_refl
              (fun history =>
                 ex_intro _
                   (Bootloader.mk_response "CYRET_SUCCESS"
                      [1; 2; 3; 4; 5; 6; 7; 8] true) eq_refl)
              eq_refl eq_refl eq_refl eq_refl)
    as (rows & final_session & Hfw & Hrun & Hw & _).
  exists final_session. split; [exact Hrun|].
  rewrite Hw. injection Hfw as <-. reflexivity.
Defined.

(** ** Byte order and what the checksum cannot see *)

(** X12: the row number changes byte order between the file and the wire: built
    from a high and a low byte the way [parse] builds it, it is sent by
    [erase_row] and [program_row] low byte first, after the array id. *)
Theorem row_number_goes_out_low_byte_first
  (self : Bootloader.session) (array_id high low : Z) (chunk : list Z)
  (Hhigh : is_byte high) (Hlow : is_byte low)
  (Hchunk : Py.len chunk <= 54) :
  let row_number := Z.lor (Z.shiftl high 8) low in
  let sent (packet : list Z) :=
    log_of self ++ [hid.Wrote packet; hid.Read 64 (next_reply self packet)] in
  log_of (snd (Bootloader.erase_row array_id row_number self))
  = sent (frame 0x34 [array_id; low; high]) /\
  log_of (snd (Bootloader.program_row array_id row_number chunk self))
  = sent (frame 0x39 ([array_id; low; high] ++ chunk)).
Proof.
  intros row_number sent. unfold row_number, sent.
  rewrite big_endian_16 by assumption.
  pose proof (len_nonneg chunk) as Hn.
  assert (Hlo : Z.land (256 * high + low) 0xff = low).
  { rewrite land_byte. unfold is_byte in *.
    replace (256 * high + low) with (low + high * 256) by lia.
    rewrite Z_mod_plus_full. apply Z.mod_small. lia. }
  assert (Hhi : Z.shiftr (256 * high + low) 8 = high).
  { rewrite shiftr_byte. unfold is_byte in *.
    replace (256 * high + low) with (low + high * 256) by lia.
    rewrite Z_div_plus_full by lia. rewrite Z.div_small by lia. lia. }
  split.
  - unfold Bootloader.erase_row. rewrite report_log, Hlo, Hhi.
    apply send_command_log. change (Py.len _) with 3. lia.
  - unfold Bootloader.program_row. rewrite report_log, Hlo, Hhi.
    apply send_command_log. rewrite len_app.
    change (Py.len [array_id; low; high]) with 3. lia.
Qed.

Lemma row_number_goes_out_low_byte_first_witness :
  log_of (snd (Bootloader.erase_row 1 0x0205
                 (Bootloader.__init__ (constant_device ack))))
  = [ hid.Wrote (frame 0x34 [1; 0x05; 0x02]); hid.Read 64 ack ].
Proof.
  exact (proj1 (row_number_goes_out_low_byte_first
                  (Bootloader.__init__ (constant_device ack)) 1 0x02 0x05 []
                  ltac:(unfold is_byte; lia) ltac:(unfold is_byte; lia)
                  ltac:(vm_compute; discriminate))).
Defined.

(** X11: [flash] programs without erasing: every packet it writes, on any device
    and for any image, carries the send-data command 0x37 or the program-row
    command 0x39, never erase-row 0x34, enter 0x38 or exit 0x3b. *)
Theorem flash_never_erases
  (firmware : list Bootloader.row) (self : Bootloader.session) :
  exists written,
    writes_of (log_of (snd (Bootloader.flash firmware self)))
    = writes_of (log_of self) ++ written /\
    Forall (fun packet => nth 1 packet 0 = 0x37 \/ nth 1 packet 0 = 0x39)
      written.
Proof.
  destruct (flash_stops_only_on_undecodable_answer firmware self)
    as (k & _ & Hw & _).
  cbv zeta in Hw.
  exists (map wire (firstn k (flat_map spec_row_calls firmware))).
  split; [exact Hw|].
  apply Forall_map. apply Forall_forall. intros c _.
  destruct c; [left|right]; reflexivity.
Qed.

(** X5: the packet checksum is a plain sum, so it cannot see bytes that changed
    places: a response whose payload has two bytes exchanged, under the
    checksum of the payload as sent, decodes with [checksum_ok = True]. *)
Theorem exchanged_payload_bytes_pass
  (code : Z) (before between after : list Z) (x y : Z) (padding : list Z)
  (name : string)
  (Hlength : Py.len (before ++ [x] ++ between ++ [y] ++ after) < 65536)
  (Hname : Py.dict_get Bootloader.STATUSES code = Ok name) :
  let sent := before ++ [x] ++ between ++ [y] ++ after in
  let got := before ++ [y] ++ between ++ [x] ++ after in
  let cs :=
    Bootloader._checksum
      ([0x01; code; Py.len sent mod 256; Py.len sent / 256] ++ sent) in
  Bootloader._parse_response
    ([0x01; code; Py.len sent mod 256; Py.len sent / 256]
       ++ got ++ [Z.land cs 0xff; Z.shiftr cs 8; 0x17] ++ padding)
  = Ok (Bootloader.mk_response name got true).
Proof.
  intros sent got cs.
  assert (Hsame : Py.len got = Py.len sent)
    by (unfold got, sent; rewrite !len_app; reflexivity).
  pose proof (parse_received code got (Z.land cs 0xff) (Z.shiftr cs 8) 0x17
                padding name ltac:(rewrite Hsame; exact Hlength) Hname) as H.
  unfold received, frame_body in H. rewrite <- app_assoc in H.
  rewrite Hsame in H. rewrite H. change (23 =? 23) with true. cbv iota.
  f_equal. f_equal.
  rewrite land_byte, shiftr_byte.
  assert (Hcs : 0 <= cs < 65536)
    by (unfold cs; rewrite bootloader_checksum_spec; apply spec_checksum_range).
  rewrite lor_shiftl by (try apply Z.mod_pos_bound; lia).
  replace (cs mod 256 + cs / 256 * 2 ^ 8) with cs
    by (pose proof (Z.div_mod cs 256 ltac:(lia)); lia).
  apply Z.eqb_eq. unfold cs.
  rewrite !bootloader_checksum_spec. unfold spec_checksum.
  f_equal. f_equal.
  unfold got, sent. rewrite !total_app. cbn [total fold_right]. lia.
Qed.

Lemma exchanged_payload_bytes_pass_witness :
  Bootloader._parse_response
    ([0x01; 0x00; 2; 0] ++ ([] ++ [9] ++ [] ++ [7] ++ [])
       ++ [0xed; 0xff; 0x17] ++ [])
  = Ok (Bootloader.mk_response "CYRET_SUCCESS" [9; 7] true).
Proof.
  exact (exchanged_payload_bytes_pass 0x00 [] [] [] 7 9 [] "CYRET_SUCCESS"
           ltac:(vm_compute; reflexivity) eq_refl).
Defined.

(** ** A bad checksum behind a surplus byte *)

(** C8, on the code: the record 01 0005 0002 AA BC, whose checksum is 0x92,
    is rejected when it ends in the wrong checksum byte 0x49, as it should
    be; with one more byte, 0xFF, after that wrong checksum it is accepted,
    because the checksum is read at index 5 + length while the sum runs over
    the line but its last byte.  [parse] stores the row and [main] programs
    it into a matching device. *)
Theorem surplus_byte_hides_bad_checksum :
  let header := "040302010500"%string in
  let rejected := ":0100050002AABC49"%string in
  let accepted := ":0100050002AABC49FF"%string in
  let record := [1; 0; 5; 0; 2; 0xaa; 0xbc] in
  decoded rejected = Ok (record ++ [0x49]) /\
  decoded accepted = Ok (record ++ [0x49; 0xff]) /\
  Cyacd._checksum record = 0x92 /\
  fst (Cyacd.parse (Cyacd.__init__ [header; rejected]))
  = Raise (AssertionError line_checksum) /\
  fst (Cyacd.parse (Cyacd.__init__ [header; accepted])) = Ok tt /\
  Cyacd.firmware (snd (Cyacd.parse (Cyacd.__init__ [header; accepted])))
  = Some [(1, 5, [0xaa; 0xbc])] /\
  let run := Main.main 1 2 (one_device 1 2) identity_device
               [header; accepted] in
  Main.ending run = Main.Finished /\
  option_map (fun b => writes_of (log_of b)) (Main.bootloader run)
  = Some [ frame 0x38 [];
           frame 0x39 [1; 5; 0; 0xaa; 0xbc];
           frame 0x3b [] ].
Proof.
  cbv zeta. repeat (split; [vm_compute; reflexivity|]).
  split; vm_compute; reflexivity.
Qed.
